(** * Game Event Analytics dashboard: query construction and metric roll-ups

    A shallow embedding of the query builders, the query executors and the
    metrics summarizer of [app.py] and [utils/db_connector.py], with the
    properties the dashboard's specification states about them.

    Conventions of the model:
    - a Python [str] is a [string] of ASCII characters, a Python [int] a [Z];
    - a database count (the result of COUNT) is an [N]; a pandas column of
      counts is an int64 column, whose sum wraps around at 2^63;
    - a floating-point quantity (revenue, a ratio) is an exact rational [Q]:
      the rounding of Float64 arithmetic is not represented;
    - a function that may raise returns an [option], or a sum whose left
      side holds the text of the exception;
    - of the [st.cache_data] decorator, what it does before the body runs is
      modelled (it hashes the arguments); the replay of the result of an
      earlier call with the same arguments is not. *)

From Stdlib Require Import String Ascii List Bool Arith ZArith NArith QArith Lia.
From Stdlib Require Import DecimalString DecimalNat Permutation FinFun.
Import ListNotations.

Close Scope Q_scope.
Local Open Scope list_scope.
Local Open Scope string_scope.

(** ** Python string primitives used by the sources *)

Module Py.

(** [str.isspace] on the ASCII range: TAB, LF, VT, FF, CR, FS, GS, RS, US
    and the blank. *)
Definition is_space (c : ascii) : bool :=
  let n := nat_of_ascii c in
  (((9 <=? n) && (n <=? 13)) || ((28 <=? n) && (n <=? 32)))%nat.

Definition is_empty (s : string) : bool :=
  match s with
  | EmptyString => true
  | String _ _ => false
  end.

(** [s.split()]: the maximal runs of non-whitespace characters of [s], in
    order.  [word] is the run being read. *)
Fixpoint split_from (word s : string) : list string :=
  match s with
  | EmptyString => if is_empty word then [] else [word]
  | String c s' =>
      if is_space c
      then (if is_empty word then split_from "" s' else word :: split_from "" s')
      else split_from (word ++ String c "") s'
  end.

Definition split (s : string) : list string := split_from "" s.

(** [l[0]]: [None] stands for [IndexError]. *)
Definition item0 {A : Type} (l : list A) : option A := nth_error l 0.

(** [sep.join(l)]. *)
Definition join (sep : string) (l : list string) : string := String.concat sep l.

(** [c.lower()] and [s.lower()] on ASCII letters. *)
Definition lower_char (c : ascii) : ascii :=
  let n := nat_of_ascii c in
  if ((65 <=? n) && (n <=? 90))%nat then ascii_of_nat (n + 32) else c.

Fixpoint lower (s : string) : string :=
  match s with
  | EmptyString => EmptyString
  | String c s' => String (lower_char c) (lower s')
  end.

(** [str(n)] for an [int], as an f-string field [{n}] renders it. *)
Definition str_of_int (n : Z) : string := NilZero.string_of_int (Z.to_int n).

Definition str_of_nat (n : nat) : string := NilZero.string_of_uint (Nat.to_uint n).

(** [[x[0] for x in l]]: [None] when some [x] is empty. *)
Fixpoint items0 {A : Type} (l : list (list A)) : option (list A) :=
  match l with
  | [] => Some []
  | x :: rest =>
      match item0 x, items0 rest with
      | Some a, Some r => Some (a :: r)
      | _, _ => None
      end
  end.

(** [l.pop(i)] for an index counted from the front: the item and the list
    left, or [None] for [IndexError]. *)
Fixpoint pop {A : Type} (i : nat) (l : list A) {struct l} : option (A * list A) :=
  match l, i with
  | [], _ => None
  | x :: rest, O => Some (x, rest)
  | x :: rest, S j =>
      match pop j rest with
      | Some (y, rest') => Some (y, x :: rest')
      | None => None
      end
  end.

Fixpoint zeros (n : nat) : string :=
  match n with
  | O => ""
  | S m => String "0" (zeros m)
  end.

(** ["%0wd" % n] for a natural number [n]. *)
Definition zero_padded (w n : nat) : string :=
  let s := str_of_nat n in zeros (w - String.length s) ++ s.

End Py.

Import Py.

(** ** The [datetime] values of the period form *)

Module Datetime.

(** A [datetime.date]. *)
Record date : Type := mkDate {
  year : nat;
  month : nat;
  day : nat
}.

(** A [datetime.time] without time zone. *)
Record time : Type := mkTime {
  hour : nat;
  minute : nat;
  second : nat;
  microsecond : nat
}.

(** [a < b] on dates: year, then month, then day. *)
Definition date_ltb (a b : date) : bool :=
  ((year a <? year b)
   || ((year a =? year b)
       && ((month a <? month b)
           || ((month a =? month b) && (day a <? day b)))))%nat.

(** [str(d)], the ISO form YYYY-MM-DD. *)
Definition str_date (d : date) : string :=
  zero_padded 4 (year d) ++ "-" ++ zero_padded 2 (month d) ++ "-"
  ++ zero_padded 2 (day d).

(** [str(t)], the ISO form HH:MM:SS, followed by the microseconds when
    there are some. *)
Definition str_time (t : time) : string :=
  zero_padded 2 (hour t) ++ ":" ++ zero_padded 2 (minute t) ++ ":"
  ++ zero_padded 2 (second t)
  ++ (if (microsecond t =? 0)%nat then "" else "." ++ zero_padded 6 (microsecond t)).

End Datetime.

(** ** Text utilities for statements about the generated SQL *)

(** Number of positions of [s] at which [pat] occurs. *)
Fixpoint occurrences (pat s : string) : nat :=
  match s with
  | EmptyString => if prefix pat "" then 1 else 0
  | String _ s' => (if prefix pat s then 1 else 0) + occurrences pat s'
  end.

Definition contains (pat s : string) : bool := negb (Nat.eqb (occurrences pat s) 0).

(** [c] does not occur in [s]. *)
Fixpoint lacks (c : ascii) (s : string) : bool :=
  match s with
  | EmptyString => true
  | String d s' => negb (Ascii.eqb c d) && lacks c s'
  end.

Fixpoint all_chars (p : ascii -> bool) (s : string) : bool :=
  match s with
  | EmptyString => true
  | String c s' => p c && all_chars p s'
  end.

(** ** Data model *)

(** One entry of [st.session_state.time_periods]: the dict
    [{'start_date': ..., 'end_date': ...}] of two formatted timestamps. *)
Record TimePeriod : Type := mkPeriod {
  start_date : string;
  end_date : string
}.

(** The arguments of a query builder. *)
Record Filter : Type := mkFilter {
  event_name : string;
  platform : string;
  min_level : Z;
  time_periods : list TimePeriod
}.

(** [format_datetime(date, time)] of [app.py], on the rendered date and time. *)
Definition format_datetime (date time : string) : string := date ++ " " ++ time.

Definition is_digit (c : ascii) : bool :=
  let n := nat_of_ascii c in ((48 <=? n) && (n <=? 57))%nat.

Definition date_char (c : ascii) : bool := is_digit c || Ascii.eqb c "-".
Definition time_char (c : ascii) : bool :=
  is_digit c || Ascii.eqb c ":" || Ascii.eqb c ".".

(** A date as [str(datetime.date)] renders it: digits and dashes. *)
Definition is_date (s : string) : bool := negb (is_empty s) && all_chars date_char s.

(** A time as [str(datetime.time)] renders it: digits, colons, a dot. *)
Definition is_time (s : string) : bool := negb (is_empty s) && all_chars time_char s.

(** A full "date time" timestamp, the shape [format_datetime] produces. *)
Fixpoint is_timestamp_from (date s : string) : bool :=
  match s with
  | EmptyString => false
  | String c s' =>
      if Ascii.eqb c " " then is_date date && is_time s'
      else is_timestamp_from (date ++ String c "") s'
  end.

Definition is_timestamp (s : string) : bool := is_timestamp_from "" s.

Definition timestamp_period (p : TimePeriod) : bool :=
  is_timestamp (start_date p) && is_timestamp (end_date p).

(** ** The SQL expressions of the derived ratios

    The four ratios of the final SELECT are computed by the analytical
    engine.  Their text is part of the query string; the expressions are
    given here as syntax, printed back to that text, and evaluated with the
    engine's documented meaning of [nullIf] and [/]. *)

(** A database count as a number. *)
Definition count_Q (n : N) : Q := inject_Z (Z.of_N n).

Module Sql.

(** A nullable numeric cell. *)
Inductive value : Type :=
| Null
| Num (q : Q).

Inductive expr : Type :=
| Col (table column : string)
| Lit (n : Z)
| NullIf (a b : expr)
| Div (a b : expr).

Fixpoint show (e : expr) : string :=
  match e with
  | Col table column => table ++ "." ++ column
  | Lit n => str_of_int n
  | NullIf a b => "nullIf(" ++ show a ++ ", " ++ show b ++ ")"
  | Div a b => show a ++ " / " ++ show b
  end.

(** What evaluating an expression gives: a cell, an engine error, or a
    Float64 that is no number ([inf], [nan]), which dividing by a zero
    that is not NULL produces. *)
Inductive result : Type :=
| Value (v : value)
| UnknownIdentifier (table column : string)
| NotFinite.

(** [nullIf(x, y)]: NULL when the arguments are equal, else [x]. *)
Definition null_if (x y : value) : value :=
  match x, y with
  | Num a, Num b => if Qeq_bool a b then Null else x
  | _, _ => x
  end.

(** [x / y]: NULL as soon as an operand is NULL. *)
Definition divide (x y : value) : result :=
  match x, y with
  | Num a, Num b => if Qeq_bool b 0 then NotFinite else Value (Num (a / b))
  | _, _ => Value Null
  end.

Definition env : Type := string -> string -> option value.

Fixpoint eval (rho : env) (e : expr) : result :=
  match e with
  | Col table column =>
      match rho table column with
      | Some v => Value v
      | None => UnknownIdentifier table column
      end
  | Lit n => Value (Num (inject_Z n))
  | NullIf a b =>
      match eval rho a, eval rho b with
      | Value x, Value y => Value (null_if x y)
      | Value _, r => r
      | r, _ => r
      end
  | Div a b =>
      match eval rho a, eval rho b with
      | Value x, Value y => divide x y
      | Value _, r => r
      | r, _ => r
      end
  end.

(** The ratio columns of the final SELECT, lines 235-242. *)
Definition conversion_rate : expr :=
  Div (Col "im" "first_time_payers") (NullIf (Col "da" "group_total_users") (Lit 0)).
Definition pay_rate : expr :=
  Div (Col "im" "paying_users") (NullIf (Col "da" "group_total_users") (Lit 0)).
Definition ARPU : expr :=
  Div (Col "im" "total_revenue") (NullIf (Col "da" "group_total_users") (Lit 0)).
Definition ARPPU : expr :=
  Div (Col "im" "total_revenue") (NullIf (Col "im" "paying_users") (Lit 0)).

(** The columns of a joined [im]/[da] row that the ratios read. *)
Record JoinedRow : Type := mkJoined {
  first_time_payers : N;
  paying_users : N;
  total_revenue : Q;
  group_total_users : N
}.

Definition env_of (r : JoinedRow) : env :=
  fun table column =>
    if String.eqb table "im" then
      if String.eqb column "first_time_payers" then Some (Num (count_Q (first_time_payers r)))
      else if String.eqb column "paying_users" then Some (Num (count_Q (paying_users r)))
      else if String.eqb column "total_revenue" then Some (Num (total_revenue r))
      else None
    else if String.eqb table "da" then
      if String.eqb column "group_total_users" then Some (Num (count_Q (group_total_users r)))
      else None
    else None.

(** The value a ratio column should have according to the dashboard's
    data model: 0 on a zero denominator, the quotient otherwise. *)
Definition ratio_or_zero (numerator denominator : Q) : value :=
  if Qeq_bool denominator 0 then Num 0 else Num (numerator / denominator).

(** The value the guarded division has: NULL on a zero denominator. *)
Definition ratio_or_null (numerator denominator : Q) : value :=
  if Qeq_bool denominator 0 then Null else Num (numerator / denominator).

End Sql.

(** ** Result tables *)

Module Participation.

(** A row of the participation table, with the column names
    [app.py] assigns (lines 501-506). *)
Record Row : Type := mkRow {
  created_day : string;
  participation_group : string;
  group_total_users : N;
  paying_users : N;
  purchase_count : N;
  total_revenue : Q;
  revenue_25th_percentile : Q;
  revenue_median : Q;
  revenue_75th_percentile : Q;
  revenue_90th_percentile : Q;
  first_time_payers : N;
  conversion_rate : Sql.value;
  pay_rate : Sql.value;
  ARPU : Sql.value;
  ARPPU : Sql.value
}.

End Participation.

Module Engagement.

(** A row of the engagement table (lines 509-512). *)
Record Row : Type := mkRow {
  created_day : string;
  unique_users : N;
  total_interactions : N;
  avg_interactions_per_user : Q;
  unique_sessions : N;
  avg_interactions_per_session : Q
}.

End Engagement.

(** A table a summarizer receives: [None] is Python's [None], [Some []] a
    DataFrame without rows. *)
Definition Table (R : Type) : Type := option (list R).

Module Pandas.

(** The int64 value that [z] wraps around to: its representative between
    -2^63 and 2^63 - 1. *)
Definition wrap_int64 (z : Z) : Z := ((z + 2 ^ 63) mod 2 ^ 64 - 2 ^ 63)%Z.

(** [Series.sum()] of an int64 column, here a column of counts each below
    2^63: a left-to-right reduction from zero in int64 arithmetic. *)
Definition sum_int64 (l : list N) : Z :=
  fold_left (fun acc x => wrap_int64 (acc + Z.of_N x)) l 0%Z.

(** [Series.sum()] of a float column: a left-to-right reduction from zero. *)
Definition sum_Q (l : list Q) : Q := fold_left Qplus l 0%Q.

(** [df[df[col] == s]]: the rows whose [col] equals [s]. *)
Definition where_eq {R : Type} (col : R -> string) (s : string) (rows : list R)
  : list R :=
  filter (fun r => String.eqb (col r) s) rows.

(** [try: body except: handler], the body raising when it is [None]. *)
Definition try_except {A : Type} (body : option A) (handler : A) : A :=
  match body with
  | Some a => a
  | None => handler
  end.

End Pandas.

(** ** The analytical engine, as the executors see it *)

Module Engine.

Inductive cell : Type :=
| Text (s : string)
| Number (q : Q)
| NullCell.

(** One result tuple. *)
Definition row : Type := list cell.

(** [client.execute(query)] returns the result rows or raises; [Raise e]
    carries [str(e)]. *)
Inductive reply : Type :=
| Rows (result : list row)
| Raise (e : string).

Definition client : Type := string -> reply.

(** A pandas DataFrame: its column labels and its rows. *)
Record DataFrame : Type := mkFrame {
  columns : list cell;
  data : list row
}.

(** [pd.DataFrame()]. *)
Definition empty_frame : DataFrame := mkFrame [] [].

(** [df.empty]. *)
Definition empty (df : DataFrame) : bool :=
  match columns df, data df with
  | _ :: _, _ :: _ => false
  | _, _ => true
  end.

(** [pd.DataFrame(result, columns=names)] of the pandas library: the frame,
    or the text of the exception it raises. *)
Definition frame_constructor : Type := list row -> list cell -> string + DataFrame.

End Engine.

(** ** Exceptions and the caching decorator *)

(** The exceptions a function of the connector ends with.  [OtherError]
    holds the text of an exception of a library that no handler catches. *)
Inductive exception : Type :=
| RuntimeError (message : string)
| UnhashableParamError (param : string)
| OtherError (text : string).

Module Streamlit.

(** An argument of a call of a function under [@st.cache_data]. *)
Inductive argument : Type :=
| Str (s : string)
| Client (c : Engine.client).

(** Whether the decorator can hash the argument into the cache key: a
    string, yes; a driver client, no, which is why [app.py] names that
    parameter [_client]. *)
Definition hashable (a : argument) : bool :=
  match a with
  | Str _ => true
  | Client _ => false
  end.

(** The decorator hashes the parameters whose name does not start with an
    underscore. *)
Definition keyed (name : string) : bool := negb (prefix "_" name).

(** The first parameter of a call that is to be hashed and cannot be. *)
Fixpoint unhashable_param (params : list (string * argument)) : option string :=
  match params with
  | [] => None
  | (name, a) :: rest =>
      if keyed name && negb (hashable a) then Some name
      else unhashable_param rest
  end.

(** A call through [@st.cache_data] for which no result is stored: the
    arguments are hashed, then the body runs. *)
Definition cache_data {A : Type} (params : list (string * argument))
  (body : exception + A) : exception + A :=
  match unhashable_param params with
  | Some name => inl (UnhashableParamError name)
  | None => body
  end.


End Streamlit.

(** ** [app.py] *)

Module App.

(** The f-string of one period's condition, lines 117-121. *)
Definition condition (start_date end_date period_start period_end : string) : string :=
  "
        (created_day BETWEEN toDate('" ++ start_date ++ "') AND toDate('" ++ end_date ++ "')
        AND created_date >= toDateTime('" ++ period_start ++ "')
        AND created_date <= toDateTime('" ++ period_end ++ "'))
        ".

(** The body of the loop of [build_time_periods_condition]: [None] when
    [split()[0]] raises. *)
Definition period_condition (period : TimePeriod) : option string :=
  match item0 (split (start_date period)), item0 (split (end_date period)) with
  | Some start_day, Some end_day =>
      Some (condition start_day end_day (start_date period) (end_date period))
  | _, _ => None
  end.

Fixpoint conditions (time_periods : list TimePeriod) : option (list string) :=
  match time_periods with
  | [] => Some []
  | period :: rest =>
      match period_condition period, conditions rest with
      | Some c, Some cs => Some (c :: cs)
      | _, _ => None
      end
  end.

Definition build_time_periods_condition (time_periods : list TimePeriod)
  : option string :=
  option_map (join " OR ") (conditions time_periods).

Definition table_prefix_of (platform : string) : string :=
  "com_fc_goods_sort_matching_puzzle_triplemaster_" ++ lower platform.

(** The participation query is one f-string (lines 133-252); it is cut
    here at its blank lines into the five common table expressions and
    the final SELECT. *)
Definition eligible_users (table_prefix time_periods_condition : string)
  (min_level : Z) : string :=
  "
    -- Identify all eligible users with the specified minimum level from retention data
    WITH eligible_users AS (
        SELECT DISTINCT
            r.account_id,
            r.created_day
        FROM 
            " ++ table_prefix ++ ".f_sdk_retention_data r
        WHERE 
            (" ++ time_periods_condition ++ ")
            AND r.level >= " ++ str_of_int min_level ++ " -- Use configurable minimum level
    ),
".

Definition event_participants (table_prefix time_periods_condition : string)
  (event_name : string) (min_level : Z) : string :=
  "
    -- Identify event participants
    event_participants AS (
        SELECT DISTINCT
            e.account_id,
            e.created_day
        FROM 
            " ++ table_prefix ++ ".f_sdk_event_data e
        WHERE 
            (" ++ time_periods_condition ++ ")
            AND e.event_name = '" ++ event_name ++ "'
            AND e.level >= " ++ str_of_int min_level ++ " -- Use configurable minimum level
    ),
".

Definition user_participation : string :=
  "
    -- Classify users as participants or non-participants
    user_participation AS (
        SELECT
            eu.account_id,
            eu.created_day,
            CASE 
                WHEN ep.account_id IS NOT NULL THEN 'Event Participant'
                ELSE 'Non-Participant'
            END AS participation_group
        FROM 
            eligible_users eu
        LEFT JOIN 
            event_participants ep
            ON eu.account_id = ep.account_id
            AND eu.created_day = ep.created_day
    ),
".

Definition daily_active_users_by_group : string :=
  "
    -- Get total active users per day BY GROUP as denominator for participation rate
    daily_active_users_by_group AS (
        SELECT
            created_day,
            participation_group,
            COUNT(DISTINCT account_id) AS group_total_users
        FROM 
            user_participation
        GROUP BY
            created_day,
            participation_group
    ),
".

Definition iap_metrics (table_prefix time_periods_condition : string)
  (min_level : Z) : string :=
  "
    -- Calculate IAP metrics combining with in_app data
    iap_metrics AS (
        SELECT
            i.created_day,
            up.participation_group,
            
            -- Basic metrics
            COUNT(DISTINCT i.account_id) AS paying_users,
            COUNT(DISTINCT i.uuid) AS purchase_count,
            SUM(i.price_usd) AS total_revenue,
            
            -- Percentiles for revenue
            quantile(0.25)(i.price_usd) AS revenue_25th_percentile,
            quantile(0.50)(i.price_usd) AS revenue_median,
            quantile(0.75)(i.price_usd) AS revenue_75th_percentile,
            quantile(0.90)(i.price_usd) AS revenue_90th_percentile,
            
            -- First purchase conversion metrics
            SUM(IF(i.in_app_count = 1, 1, 0)) AS first_time_payers
        FROM 
            " ++ table_prefix ++ ".f_sdk_in_app_data i
        JOIN
            user_participation up 
            ON i.account_id = up.account_id 
            AND i.created_day = up.created_day
        WHERE
            (" ++ time_periods_condition ++ ")
            AND i.level >= " ++ str_of_int min_level ++ " -- Use configurable minimum level
        GROUP BY
            i.created_day,
            up.participation_group
    )
".

Definition final_select : string :=
  "
    -- Final result with ARPU and ARPPU calculations
    SELECT
        im.created_day,
        im.participation_group,
        da.group_total_users,
        im.paying_users,
        im.purchase_count,
        im.total_revenue,
        im.revenue_25th_percentile,
        im.revenue_median,
        im.revenue_75th_percentile,
        im.revenue_90th_percentile,
        im.first_time_payers,
        -- Conversion rate: first time payers divided by THAT GROUP'S total users
        im.first_time_payers / nullIf(da.group_total_users, 0) AS conversion_rate,
        -- Pay rate: paying users divided by THAT GROUP'S total users
        im.paying_users / nullIf(da.group_total_users, 0) AS pay_rate,
        -- ARPU: Total Revenue / Total Users in the group
        im.total_revenue / nullIf(da.group_total_users, 0) AS ARPU,
        -- ARPPU: Total Revenue / Paying Users
        im.total_revenue / nullIf(im.paying_users, 0) AS ARPPU
    FROM
        iap_metrics im
    JOIN
        daily_active_users_by_group da
        ON im.created_day = da.created_day
        AND im.participation_group = da.participation_group
    ORDER BY
        im.created_day,
        im.participation_group
    ".

Definition participation_query (table_prefix time_periods_condition : string)
  (event_name : string) (min_level : Z) : string :=
  eligible_users table_prefix time_periods_condition min_level
  ++ event_participants table_prefix time_periods_condition event_name min_level
  ++ user_participation
  ++ daily_active_users_by_group
  ++ iap_metrics table_prefix time_periods_condition min_level
  ++ final_select.

Definition get_event_participation_query (event_name : string)
  (time_periods : list TimePeriod) (platform : string) (min_level : Z)
  : option string :=
  let table_prefix := table_prefix_of platform in
  match build_time_periods_condition time_periods with
  | Some time_periods_condition =>
      Some (participation_query table_prefix time_periods_condition
              event_name min_level)
  | None => None
  end.

(** The f-string of the engagement query, lines 263-285. *)
Definition engagement_query (table_prefix time_periods_condition : string)
  (event_name : string) (min_level : Z) : string :=
  "
    WITH event_engagement AS (
        SELECT
            created_day,
            COUNT(DISTINCT account_id) AS unique_users,
            COUNT(*) AS total_interactions,
            COUNT(*) / COUNT(DISTINCT account_id) AS avg_interactions_per_user,
            COUNT(DISTINCT session_id) AS unique_sessions,
            COUNT(*) / COUNT(DISTINCT session_id) AS avg_interactions_per_session
        FROM
            " ++ table_prefix ++ ".f_sdk_event_data
        WHERE
            (" ++ time_periods_condition ++ ")
            AND event_name = '" ++ event_name ++ "'
            AND level >= " ++ str_of_int min_level ++ " -- Use configurable minimum level
        GROUP BY
            created_day
        ORDER BY
            created_day
    )
    
    SELECT * FROM event_engagement
    ".

Definition get_event_engagement_query (event_name : string)
  (time_periods : list TimePeriod) (platform : string) (min_level : Z)
  : option string :=
  let table_prefix := table_prefix_of platform in
  match build_time_periods_condition time_periods with
  | Some time_periods_condition =>
      Some (engagement_query table_prefix time_periods_condition
              event_name min_level)
  | None => None
  end.


(** What a call of [execute_query] leaves behind: the value it returns
    ([None] is Python's [None]) and the messages it passed to
    [st.error]. *)
Record outcome : Type := mkOutcome {
  returned : option Engine.DataFrame;
  st_error : list string
}.

Section Executor.

Variable pd_DataFrame : Engine.frame_constructor.

(** The [except] branch, lines 80-82. *)
Definition failed (platform e : string) : outcome :=
  mkOutcome None [("Query execution failed for " ++ platform ++ ": " ++ e)%string].

(** [execute_query], lines 62-82, without the memoizing decorator. *)
Definition execute_query (_client : Engine.client) (query platform : string)
  : outcome :=
  match _client query with
  | Engine.Raise e => failed platform e
  | Engine.Rows [] => mkOutcome (Some Engine.empty_frame) []
  | Engine.Rows ((first :: _) as result) =>
      let column_names :=
        map (fun i => Engine.Text ("column_" ++ str_of_nat i))
          (seq 0 (List.length first)) in
      match pd_DataFrame result column_names with
      | inr df => mkOutcome (Some df) []
      | inl e => failed platform e
      end
  end.

End Executor.


(** [calculate_overall_participation_rate], lines 289-304.  On typed rows
    no column access raises, so the handler is never taken. *)
Definition calculate_overall_participation_rate (df : Table Participation.Row) : Q :=
  match df with
  | None => 0%Q
  | Some [] => 0%Q
  | Some rows =>
      Pandas.try_except
        (let participants :=
           Pandas.sum_int64 (map Participation.group_total_users
                    (Pandas.where_eq Participation.participation_group "Event Participant" rows)) in
         let total_users :=
           Pandas.sum_int64 (map Participation.group_total_users rows) in
         if (0 <? total_users)%Z
         then Some (inject_Z participants / inject_Z total_users)%Q
         else Some 0%Q)
        0%Q
  end.

(** [calculate_overall_revenue], lines 306-316. *)
Definition calculate_overall_revenue (df : Table Participation.Row) : Q :=
  match df with
  | None => 0%Q
  | Some [] => 0%Q
  | Some rows =>
      Pandas.try_except
        (let participant_revenue :=
           Pandas.sum_Q (map Participation.total_revenue
                    (Pandas.where_eq Participation.participation_group "Event Participant" rows)) in
         Some participant_revenue)
        0%Q
  end.

(** The total-engagement tile, lines 518-521. *)
Definition total_engagement (engagement_df : Table Engagement.Row) : Z :=
  let total_engagement := 0%Z in
  match engagement_df with
  | Some ((_ :: _) as rows) =>
      Pandas.sum_int64 (map Engagement.total_interactions rows)
  | _ => total_engagement
  end.

(** What a call of [get_available_events] leaves behind: the list it
    returns and the messages it passed to [st.error]. *)
Record listing : Type := mkListing {
  events : list Engine.cell;
  listing_error : list string
}.

Definition events_table (platform : string) : string :=
  "com_fc_goods_sort_matching_puzzle_triplemaster_" ++ lower platform
  ++ ".f_sdk_event_data".

(** The f-string of lines 92-96. *)
Definition events_query (table_name : string) : string :=
  "
    SELECT DISTINCT event_name
    FROM " ++ table_name ++ "
    ORDER BY event_name
    ".

Definition listing_failed (platform e : string) : listing :=
  mkListing [] [("Failed to retrieve event names for " ++ platform ++ ": " ++ e)%string].

(** [get_available_events], lines 84-103, without the memoizing decorator.
    An empty tuple makes [event[0]] raise inside the [try]. *)
Definition get_available_events (_client : Engine.client) (platform : string)
  : listing :=
  let table_name := events_table platform in
  let query := events_query table_name in
  match _client query with
  | Engine.Raise e => listing_failed platform e
  | Engine.Rows result =>
      match items0 result with
      | Some names => mkListing names []
      | None => listing_failed platform "tuple index out of range"
      end
  end.



(** The script run in which the add-period form is submitted, lines
    436-456: the period is appended unless the end date is before the start
    date. *)
Definition add_time_period (new_start_date : Datetime.date)
  (new_start_time : Datetime.time) (new_end_date : Datetime.date)
  (new_end_time : Datetime.time) (time_periods : list TimePeriod)
  : list TimePeriod :=
  let date_error := Datetime.date_ltb new_end_date new_start_date in
  if negb date_error then
    let start_datetime :=
      format_datetime (Datetime.str_date new_start_date)
        (Datetime.str_time new_start_time) in
    let end_datetime :=
      format_datetime (Datetime.str_date new_end_date)
        (Datetime.str_time new_end_time) in
    (time_periods ++ [mkPeriod start_datetime end_datetime])%list
  else time_periods.

(** What the operator does to the list of periods between two analyses. *)
Inductive event : Type :=
| Submit (new_start_date : Datetime.date) (new_start_time : Datetime.time)
    (new_end_date : Datetime.date) (new_end_time : Datetime.time)
| Remove (i : nat)
| ClearAll.

(** One script run on an event, lines 409-476.  [None]: the widget is not
    on the page, since a Remove button is drawn for the indices of the list
    only and the Clear button for a non-empty list only. *)
Definition handle (e : event) (time_periods : list TimePeriod)
  : option (list TimePeriod) :=
  match e with
  | Submit d1 t1 d2 t2 => Some (add_time_period d1 t1 d2 t2 time_periods)
  | Remove i => option_map snd (pop i time_periods)
  | ClearAll =>
      match time_periods with
      | [] => None
      | _ :: _ => Some []
      end
  end.




End App.

(** ** [utils/db_connector.py] *)

Module DbConnector.

(** The f-string of one period's condition, lines 82-86: both [toDate]
    and [toDateTime] receive the stored timestamp. *)
Definition condition (period_start period_end : string) : string :=
  "
        (created_day BETWEEN toDate('" ++ period_start ++ "') AND toDate('" ++ period_end ++ "')
        AND created_date >= toDateTime('" ++ period_start ++ "')
        AND created_date <= toDateTime('" ++ period_end ++ "'))
        ".

Definition build_time_periods_condition (time_periods : list TimePeriod) : string :=
  join " OR "
    (map (fun period => condition (start_date period) (end_date period))
       time_periods).

Definition table_prefix_of (platform : string) : string :=
  "com_fc_goods_sort_matching_puzzle_triplemaster_" ++ lower platform.

(** The f-string of lines 95-130. *)
Definition participation_query (table_prefix time_periods_condition : string)
  (event_name : string) (min_level : Z) : string :=
  "
    WITH eligible_users AS (
        SELECT DISTINCT
            r.account_id,
            r.created_day
        FROM 
            " ++ table_prefix ++ ".f_sdk_retention_data r
        WHERE 
            (" ++ time_periods_condition ++ ")
            AND r.level >= " ++ str_of_int min_level ++ "
    ),
    event_participants AS (
        SELECT DISTINCT
            e.account_id,
            e.created_day
        FROM 
            " ++ table_prefix ++ ".f_sdk_event_data e
        WHERE 
            (" ++ time_periods_condition ++ ")
            AND e.event_name = '" ++ event_name ++ "'
            AND e.level >= " ++ str_of_int min_level ++ "
    )
    SELECT
        eu.account_id,
        eu.created_day,
        CASE 
            WHEN ep.account_id IS NOT NULL THEN 'Event Participant'
            ELSE 'Non-Participant'
        END AS participation_group
    FROM 
        eligible_users eu
    LEFT JOIN 
        event_participants ep
        ON eu.account_id = ep.account_id
        AND eu.created_day = ep.created_day
    ".

Definition get_event_participation_query (event_name : string)
  (time_periods : list TimePeriod) (platform : string) (min_level : Z) : string :=
  let table_prefix := table_prefix_of platform in
  let time_periods_condition := build_time_periods_condition time_periods in
  participation_query table_prefix time_periods_condition event_name min_level.


Section Executor.

Variable pd_DataFrame : Engine.frame_constructor.

(** [RuntimeError(f"Query execution failed: {e}")]. *)
Definition failed (e : string) : string + Engine.DataFrame :=
  inl ("Query execution failed: " ++ e)%string.

(** [col[0] for col in rows]; [None] when a tuple is empty. *)
Fixpoint first_cells (rows : list Engine.row) : option (list Engine.cell) :=
  match rows with
  | [] => Some []
  | col :: rest =>
      match item0 col, first_cells rest with
      | Some c, Some cs => Some (c :: cs)
      | _, _ => None
      end
  end.

(** The body of [execute_query], lines 46-59: the frame, or the message of
    the [RuntimeError] it raises. *)
Definition execute_query_body (client : Engine.client) (query : string)
  : string + Engine.DataFrame :=
  match client query with
  | Engine.Raise e => failed e
  | Engine.Rows [] => inr Engine.empty_frame
  | Engine.Rows ((_ :: _) as result) =>
      match client "SELECT name FROM system.columns WHERE table = 'TABLE_NAME' LIMIT 0" with
      | Engine.Raise e => failed e
      | Engine.Rows names =>
          match first_cells names with
          | None => failed "tuple index out of range"
          | Some column_names =>
              match pd_DataFrame result column_names with
              | inr df => inr df
              | inl e => failed e
              end
          end
      end
  end.

(** [execute_query] as decorated, lines 44-45: both parameters are hashed
    before the body runs. *)
Definition execute_query (client : Engine.client) (query : string)
  : exception + Engine.DataFrame :=
  Streamlit.cache_data
    [("client", Streamlit.Client client); ("query", Streamlit.Str query)]
    (match execute_query_body client query with
     | inl message => inl (RuntimeError message)
     | inr df => inr df
     end).

End Executor.

(** An exception, or a value. *)
Definition raising (A : Type) : Type := (exception + A)%type.







Definition events_table (platform : string) : string :=
  "com_fc_goods_sort_matching_puzzle_triplemaster_" ++ lower platform
  ++ ".f_sdk_event_data".

(** The f-string of lines 66-70. *)
Definition events_query (table_name : string) : string :=
  "
    SELECT DISTINCT event_name
    FROM " ++ table_name ++ "
    ORDER BY event_name
    ".

(** The body of [get_available_events], lines 64-75. *)
Definition get_available_events_body (client : Engine.client) (platform : string)
  : raising (list Engine.cell) :=
  let table_name := events_table platform in
  let query := events_query table_name in
  match client query with
  | Engine.Raise e =>
      inl (RuntimeError
             ("Failed to retrieve event names for " ++ platform ++ ": " ++ e))
  | Engine.Rows result =>
      match items0 result with
      | Some names => inr names
      | None =>
          inl (RuntimeError
                 ("Failed to retrieve event names for " ++ platform
                  ++ ": tuple index out of range"))
      end
  end.

(** [get_available_events] as decorated, lines 62-63: both parameters are
    hashed before the body runs. *)
Definition get_available_events (client : Engine.client) (platform : string)
  : raising (list Engine.cell) :=
  Streamlit.cache_data
    [("client", Streamlit.Client client); ("platform", Streamlit.Str platform)]
    (get_available_events_body client platform).

Section Connection.

(** [ChClient(host=..., port=..., user='bytehouse', password=...,
    secure=True)] of the driver: the client, or the text of the exception. *)
Variable ChClient : Engine.cell -> Engine.cell -> Engine.cell -> string + Engine.client.



End Connection.

End DbConnector.

(** * Vocabulary of the statements *)

(** ** Text of a condition *)


(** A clause: not empty and free of the letter O. *)
Definition plain_clause (c : string) : Prop := c <> "" /\ lacks "O" c = true.

(** [c] is no whitespace. *)
Definition not_space (c : ascii) : bool := negb (is_space c).

(** A non-empty run of non-whitespace characters. *)
Definition single_token (s : string) : bool :=
  negb (is_empty s) && all_chars not_space s.

Definition single_token_period (p : TimePeriod) : bool :=
  single_token (start_date p) && single_token (end_date p).

(** [c] is an opening parenthesis, a body and a closing parenthesis, with
    nothing but whitespace around them. *)
Definition parenthesized (c : string) : Prop :=
  exists lead body trail,
    c = lead ++ "(" ++ body ++ ")" ++ trail
    /\ all_chars is_space lead = true /\ all_chars is_space trail = true.


(** ** The branches of the participation query around their condition *)








(** ** The scenario of the specification *)

(** The period of the spec's scenario, and a second one. *)
Definition spring_week : TimePeriod :=
  mkPeriod "2024-01-01 00:00:00" "2024-01-07 23:59:59".

Definition february_days : TimePeriod :=
  mkPeriod "2024-02-01 10:00:00" "2024-02-03 12:30:00".

(** The two query builders of [app.py] applied to a filter. *)
Definition participation_query_of (f : Filter) : option string :=
  App.get_event_participation_query (event_name f) (time_periods f) (platform f)
    (min_level f).

Definition engagement_query_of (f : Filter) : option string :=
  App.get_event_engagement_query (event_name f) (time_periods f) (platform f)
    (min_level f).

(** The filter of the spec's scenario. *)
Definition spring_filter : Filter := mkFilter "spring_event" "Android" 5 [spring_week].

(** ** Sums over result tables *)

(** The sum of a column of counts, without bound. *)
Definition total (l : list N) : N := fold_right N.add 0%N l.

(** The largest value of an int64, 2^63 - 1, is below this bound. *)
Definition int64_bound : N := (2 ^ 63)%N.

(** Users of the rows labelled 'Event Participant'. *)
Fixpoint participant_users (rows : list Participation.Row) : N :=
  match rows with
  | [] => 0
  | r :: rest =>
      ((if String.eqb (Participation.participation_group r) "Event Participant"
        then Participation.group_total_users r else 0)
       + participant_users rest)%N
  end.

(** Users of all rows. *)
Fixpoint all_users (rows : list Participation.Row) : N :=
  match rows with
  | [] => 0
  | r :: rest => (Participation.group_total_users r + all_users rest)%N
  end.

(** Revenue of the rows labelled 'Event Participant'. *)
Fixpoint participant_revenue (rows : list Participation.Row) : Q :=
  match rows with
  | [] => 0
  | r :: rest =>
      ((if String.eqb (Participation.participation_group r) "Event Participant"
        then Participation.total_revenue r else 0)
       + participant_revenue rest)%Q
  end.

(** Interactions of all rows. *)
Fixpoint all_interactions (rows : list Engagement.Row) : N :=
  match rows with
  | [] => 0
  | r :: rest => (Engagement.total_interactions r + all_interactions rest)%N
  end.

(** ** Engines and frames for the executors *)

(** A frame constructor that accepts every result. *)
Definition any_frame : Engine.frame_constructor :=
  fun result column_names => inr (Engine.mkFrame column_names result).

(** An engine that answers every query without rows, and one that raises
    [e] on every query. *)
Definition empty_engine : Engine.client := fun _ => Engine.Rows [].

Definition failing_engine (e : string) : Engine.client := fun _ => Engine.Raise e.

(** The returned value can be said to carry the platform and the message
    when both can be read back from it. *)
Definition failure_value_carries_context (pd_DataFrame : Engine.frame_constructor)
  : Prop :=
  exists platform_of message_of : option Engine.DataFrame -> string,
    forall (client : Engine.client) (query platform e : string),
      client query = Engine.Raise e ->
      let value := App.returned (App.execute_query pd_DataFrame client query platform) in
      platform_of value = platform /\ message_of value = e.

(** ** The store of periods and the listings *)

(** [s] holds whitespace only, so that [s.split()] is empty. *)
Definition blank (s : string) : bool := all_chars is_space s.

Definition blank_period (p : TimePeriod) : bool :=
  blank (start_date p) || blank (end_date p).

(** The period the form stores for two dates and two times. *)
Definition period_of (d1 : Datetime.date) (t1 : Datetime.time)
  (d2 : Datetime.date) (t2 : Datetime.time) : TimePeriod :=
  mkPeriod (format_datetime (Datetime.str_date d1) (Datetime.str_time t1))
    (format_datetime (Datetime.str_date d2) (Datetime.str_time t2)).

(** The end date of a stored period is not before its start date. *)
Definition dates_in_order (d1 d2 : Datetime.date) : Prop :=
  Datetime.date_ltb d2 d1 = false.

(** The labels [column_0], [column_1], ... of [k] columns. *)
Definition positional_names (k : nat) : list Engine.cell :=
  map (fun i => Engine.Text ("column_" ++ str_of_nat i)) (seq 0 k).

Definition new_year : Datetime.date := Datetime.mkDate 2024 1 1.
Definition noon : Datetime.time := Datetime.mkTime 12 0 0 0.
Definition one_o_clock : Datetime.time := Datetime.mkTime 1 0 0 0.

(** Rows for examples. *)
Definition participant_row : Participation.Row :=
  Participation.mkRow "2024-01-01" "Event Participant" 3 1 1 10 0 0 0 0 0
    Sql.Null Sql.Null Sql.Null Sql.Null.
Definition other_row : Participation.Row :=
  Participation.mkRow "2024-01-01" "Non-Participant" 5 1 1 7 0 0 0 0 0
    Sql.Null Sql.Null Sql.Null Sql.Null.
(** A group of 2^62 users, and a day of 2^62 interactions. *)
Definition crowd_row : Participation.Row :=
  Participation.mkRow "2024-01-01" "Event Participant" (2 ^ 62) 1 1 10 0 0 0 0 0
    Sql.Null Sql.Null Sql.Null Sql.Null.
Definition crowd_day : Engagement.Row :=
  Engagement.mkRow "2024-01-01" 10 (2 ^ 62) 5 10 5.
Definition busy_day : Engagement.Row := Engagement.mkRow "2024-01-01" 10 50 5 10 5.
Definition quiet_day : Engagement.Row := Engagement.mkRow "2024-01-02" 1 2 2 1 2.





(** * Properties *)

(** ** Strings *)

Lemma append_assoc (a b c : string) : (a ++ b) ++ c = a ++ (b ++ c).
Proof.
  induction a as [|x a IH]; simpl; [reflexivity | now rewrite IH].
Qed.

Lemma append_empty_r (a : string) : a ++ "" = a.
Proof.
  induction a as [|x a IH]; simpl; [reflexivity | now rewrite IH].
Qed.

Lemma append_inv_head (a b c : string) : a ++ b = a ++ c -> b = c.
Proof.
  induction a as [|x a IH]; simpl; intros H; [exact H|].
  injection H as H. now apply IH.
Qed.

Lemma some_inj {A : Type} (a b : A) : Some a = Some b -> a = b.
Proof.
  intros H. now injection H.
Qed.

Ltac assoc_right := repeat rewrite append_assoc.

Lemma lacks_app (c : ascii) (a b : string) :
  lacks c (a ++ b) = lacks c a && lacks c b.
Proof.
  induction a as [|x a IH]; simpl; [reflexivity|].
  rewrite IH. now rewrite andb_assoc.
Qed.

Lemma all_chars_app (p : ascii -> bool) (a b : string) :
  all_chars p (a ++ b) = all_chars p a && all_chars p b.
Proof.
  induction a as [|x a IH]; simpl; [reflexivity|].
  rewrite IH. now rewrite andb_assoc.
Qed.

Lemma all_chars_lacks (p : ascii -> bool) (c : ascii) (s : string) :
  p c = false -> all_chars p s = true -> lacks c s = true.
Proof.
  intros Hc. induction s as [|x s IH]; simpl; [reflexivity|].
  intros H. apply andb_true_iff in H as [Hx Hs].
  rewrite (IH Hs), andb_true_r.
  destruct (Ascii.eqb_spec c x) as [->|_]; [congruence | reflexivity].
Qed.



(** ** Counting the separators of a joined condition *)

Section Separator.

Let sep : string := " OR ".









End Separator.

(** ** Timestamps and their first token *)

Lemma date_char_not_space (c : ascii) : date_char c = true -> not_space c = true.
Proof.
  destruct c as [[] [] [] [] [] [] [] []]; vm_compute; intros H;
    (discriminate H || reflexivity).
Qed.

Lemma all_chars_impl (p q : ascii -> bool) (s : string) :
  (forall c, p c = true -> q c = true) -> all_chars p s = true -> all_chars q s = true.
Proof.
  intros Hpq. induction s as [|x s IH]; simpl; [reflexivity|].
  intros H. apply andb_true_iff in H as [Hx Hs].
  now rewrite (Hpq x Hx), (IH Hs).
Qed.

Lemma is_empty_app (a b : string) : is_empty a = false -> is_empty (a ++ b) = false.
Proof.
  now destruct a.
Qed.

Lemma split_from_token (d : string) : forall word t,
  all_chars not_space d = true -> is_empty (word ++ d) = false ->
  split_from word (d ++ String " " t) = (word ++ d) :: split_from "" t.
Proof.
  induction d as [|x d IH]; intros word t Hd Hne.
  - rewrite append_empty_r in *. simpl. now rewrite Hne.
  - simpl in Hd. apply andb_true_iff in Hd as [Hx Hd].
    unfold not_space in Hx. apply negb_true_iff in Hx.
    change (String x d ++ String " " t) with (String x (d ++ String " " t)).
    cbn [split_from]. rewrite Hx.
    rewrite IH; [| exact Hd | now rewrite append_assoc].
    now rewrite append_assoc.
Qed.

Lemma split_from_single (d : string) : forall word,
  all_chars not_space d = true -> is_empty (word ++ d) = false ->
  split_from word d = [word ++ d].
Proof.
  induction d as [|x d IH]; intros word Hd Hne.
  - rewrite append_empty_r in *. simpl. now rewrite Hne.
  - simpl in Hd. apply andb_true_iff in Hd as [Hx Hd].
    unfold not_space in Hx. apply negb_true_iff in Hx.
    cbn [split_from]. rewrite Hx.
    rewrite IH; [| exact Hd | now rewrite append_assoc].
    now rewrite append_assoc.
Qed.

Lemma single_token_split (s : string) :
  single_token s = true -> item0 (split s) = Some s.
Proof.
  unfold single_token, split. intros H.
  apply andb_true_iff in H as [Hne Hs]. apply negb_true_iff in Hne.
  now rewrite split_from_single.
Qed.

Lemma is_timestamp_from_shape (s : string) : forall date,
  is_timestamp_from date s = true ->
  exists d t, s = d ++ String " " t /\ is_date (date ++ d) = true /\ is_time t = true.
Proof.
  induction s as [|c s IH]; intros date H; [discriminate|].
  cbn [is_timestamp_from] in H.
  destruct (Ascii.eqb_spec c " ") as [->|_].
  - apply andb_true_iff in H as [Hd Ht].
    exists "", s. now rewrite append_empty_r.
  - destruct (IH _ H) as (d & t & -> & Hd & Ht).
    exists (String c d), t. rewrite append_assoc in Hd. now repeat split.
Qed.

(** A timestamp is a date and a time put together by [format_datetime]. *)
Lemma timestamp_shape (s : string) :
  is_timestamp s = true ->
  exists d t, s = format_datetime d t /\ is_date d = true /\ is_time t = true.
Proof.
  intros H. destruct (is_timestamp_from_shape s "" H) as (d & t & -> & Hd & Ht).
  now exists d, t.
Qed.

Lemma is_date_token (d : string) : is_date d = true -> single_token d = true.
Proof.
  unfold is_date, single_token. intros H.
  apply andb_true_iff in H as [-> H]. simpl.
  exact (all_chars_impl _ _ d date_char_not_space H).
Qed.

Lemma is_date_lacks_O (d : string) : is_date d = true -> lacks "O" d = true.
Proof.
  unfold is_date. intros H. apply andb_true_iff in H as [_ H].
  now apply (all_chars_lacks date_char).
Qed.

Lemma is_time_lacks_O (t : string) : is_time t = true -> lacks "O" t = true.
Proof.
  unfold is_time. intros H. apply andb_true_iff in H as [_ H].
  now apply (all_chars_lacks time_char).
Qed.

(** [split()[0]] of a timestamp is its date. *)
Lemma first_token_timestamp (d t : string) :
  is_date d = true -> item0 (split (format_datetime d t)) = Some d.
Proof.
  intros Hd. apply is_date_token in Hd. unfold single_token in Hd.
  apply andb_true_iff in Hd as [Hne Hd]. apply negb_true_iff in Hne.
  unfold format_datetime, split.
  change (d ++ " " ++ t) with (d ++ String " " t).
  now rewrite split_from_token.
Qed.

Lemma timestamp_lacks_O (d t : string) :
  is_date d = true -> is_time t = true -> lacks "O" (format_datetime d t) = true.
Proof.
  intros Hd Ht. unfold format_datetime. rewrite !lacks_app.
  now rewrite (is_date_lacks_O d Hd), (is_time_lacks_O t Ht).
Qed.

(** ** The clauses of the two condition builders *)

Lemma app_condition_plain (d1 d2 s1 s2 : string) :
  lacks "O" d1 = true -> lacks "O" d2 = true ->
  lacks "O" s1 = true -> lacks "O" s2 = true ->
  plain_clause (App.condition d1 d2 s1 s2).
Proof.
  intros H1 H2 H3 H4. split; [discriminate|].
  unfold App.condition. rewrite !lacks_app, H1, H2, H3, H4. reflexivity.
Qed.


Lemma app_condition_parenthesized (d1 d2 s1 s2 : string) :
  parenthesized (App.condition d1 d2 s1 s2).
Proof.
  exists "
        ",
    ("created_day BETWEEN toDate('" ++ d1 ++ "') AND toDate('" ++ d2 ++ "')
        AND created_date >= toDateTime('" ++ s1 ++ "')
        AND created_date <= toDateTime('" ++ s2 ++ "')"),
    "
        ".
  repeat split. unfold App.condition. assoc_right. reflexivity.
Qed.




(** The clause [app.py] builds for a period of two timestamps. *)
Lemma app_period_condition_timestamp (p : TimePeriod) :
  timestamp_period p = true ->
  exists d1 t1 d2 t2,
    start_date p = format_datetime d1 t1 /\ end_date p = format_datetime d2 t2
    /\ is_date d1 = true /\ is_time t1 = true
    /\ is_date d2 = true /\ is_time t2 = true
    /\ App.period_condition p
       = Some (App.condition d1 d2 (start_date p) (end_date p)).
Proof.
  unfold timestamp_period. intros H. apply andb_true_iff in H as [Hs He].
  destruct (timestamp_shape _ Hs) as (d1 & t1 & E1 & Hd1 & Ht1).
  destruct (timestamp_shape _ He) as (d2 & t2 & E2 & Hd2 & Ht2).
  exists d1, t1, d2, t2. repeat split; try assumption.
  unfold App.period_condition.
  rewrite E1, E2, !first_token_timestamp by assumption. reflexivity.
Qed.

Lemma app_conditions_timestamps (time_periods : list TimePeriod) :
  Forall (fun p => timestamp_period p = true) time_periods ->
  exists clauses,
    App.conditions time_periods = Some clauses
    /\ List.length clauses = List.length time_periods
    /\ Forall plain_clause clauses /\ Forall parenthesized clauses.
Proof.
  induction 1 as [|p ps Hp _ IH].
  - exists []. repeat split; constructor.
  - destruct IH as (cs & E & Hlen & Hplain & Hpar).
    destruct (app_period_condition_timestamp p Hp)
      as (d1 & t1 & d2 & t2 & E1 & E2 & Hd1 & Ht1 & Hd2 & Ht2 & Ec).
    exists (App.condition d1 d2 (start_date p) (end_date p) :: cs).
    cbn [App.conditions]. rewrite Ec, E. repeat split.
    + simpl. now rewrite Hlen.
    + constructor; [|assumption].
      apply app_condition_plain.
      * now apply is_date_lacks_O.
      * now apply is_date_lacks_O.
      * rewrite E1. now apply timestamp_lacks_O.
      * rewrite E2. now apply timestamp_lacks_O.
    + constructor; [apply app_condition_parenthesized | assumption].
Qed.


(** ** The condition builders on timestamps *)





(** ** Determinism of the query builders *)

(** C3.  Two calls of [get_event_participation_query], or of
    [get_event_engagement_query], on arguments that are equal field by field
    return the same query text (or fail alike). *)
Theorem query_builders_deterministic :
  forall f g : Filter,
    event_name f = event_name g ->
    time_periods f = time_periods g ->
    platform f = platform g ->
    min_level f = min_level g ->
    participation_query_of f = participation_query_of g
    /\ engagement_query_of f = engagement_query_of g.
Proof.
  intros f g He Ht Hp Hl.
  unfold participation_query_of, engagement_query_of.
  rewrite He, Ht, Hp, Hl. split; reflexivity.
Qed.

Lemma query_builders_deterministic_spring :
  participation_query_of spring_filter
  = participation_query_of (mkFilter "spring_event" "Android" (2 + 3) [spring_week])
  /\ engagement_query_of spring_filter
     = engagement_query_of (mkFilter "spring_event" "Android" (2 + 3) [spring_week]).
Proof.
  apply (query_builders_deterministic spring_filter
           (mkFilter "spring_event" "Android" (2 + 3) [spring_week]));
    reflexivity.
Defined.

(** ** Counting a pattern around timestamps *)





















(** ** The scenario of the spec *)



(** ** The two condition builders compared *)

(** C9, as the code has it.  On a non-empty list of periods whose bounds are
    full "date time" timestamps the two builders return different strings:
    [app.py] hands [toDate] the date token of the bound, the connector the
    whole timestamp.  They return the same string when every bound is a
    single token without whitespace. *)
Theorem build_time_periods_condition_compared :
  (forall time_periods : list TimePeriod,
      time_periods <> [] ->
      Forall (fun p => timestamp_period p = true) time_periods ->
      App.build_time_periods_condition time_periods
      <> Some (DbConnector.build_time_periods_condition time_periods))
  /\ (forall time_periods : list TimePeriod,
         Forall (fun p => single_token_period p = true) time_periods ->
         App.build_time_periods_condition time_periods
         = Some (DbConnector.build_time_periods_condition time_periods)).
Proof.
  split.
  - intros [|p ps] Hne Hts; [congruence|].
    inversion Hts as [|? ? Hp Hps]; subst.
    destruct (app_conditions_timestamps ps Hps) as (cs & E & _).
    destruct (app_period_condition_timestamp p Hp)
      as (d1 & t1 & d2 & t2 & E1 & E2 & _ & _ & _ & _ & Ec).
    unfold App.build_time_periods_condition, DbConnector.build_time_periods_condition.
    cbn [App.conditions map]. rewrite Ec, E. cbn [option_map].
    intros H. apply some_inj in H.
    assert (J : forall c l, exists tail, join " OR " (c :: l) = c ++ tail).
    { intros c [|c' l]; [exists ""; now rewrite append_empty_r|].
      now exists (" OR " ++ join " OR " (c' :: l)). }
    destruct (J (App.condition d1 d2 (start_date p) (end_date p)) cs) as [ta Ea].
    destruct (J (DbConnector.condition (start_date p) (end_date p))
                (map (fun period =>
                        DbConnector.condition (start_date period) (end_date period)) ps))
      as [tb Eb].
    rewrite Ea, Eb, E1 in H.
    unfold App.condition, DbConnector.condition, format_datetime in H.
    repeat rewrite append_assoc in H.
    apply append_inv_head in H. apply append_inv_head in H.
    discriminate H.
  - intros time_periods Hts.
    unfold App.build_time_periods_condition, DbConnector.build_time_periods_condition.
    assert (E : App.conditions time_periods
                = Some (map (fun period =>
                               DbConnector.condition (start_date period) (end_date period))
                          time_periods)).
    { induction Hts as [|p ps Hp _ IH]; [reflexivity|].
      cbn [App.conditions map]. rewrite IH.
      unfold single_token_period in Hp. apply andb_true_iff in Hp as [Hs He].
      unfold App.period_condition.
      rewrite (single_token_split _ Hs), (single_token_split _ He).
      reflexivity. }
    rewrite E. reflexivity.
Qed.

Lemma build_time_periods_condition_compared_examples :
  App.build_time_periods_condition [spring_week; february_days]
  <> Some (DbConnector.build_time_periods_condition [spring_week; february_days])
  /\ App.build_time_periods_condition [mkPeriod "2024-01-01" "2024-01-07"]
     = Some (DbConnector.build_time_periods_condition [mkPeriod "2024-01-01" "2024-01-07"]).
Proof.
  split.
  - apply (proj1 build_time_periods_condition_compared [spring_week; february_days]).
    + discriminate.
    + repeat constructor.
  - apply (proj2 build_time_periods_condition_compared [mkPeriod "2024-01-01" "2024-01-07"]).
    repeat constructor.
Defined.

(** The claim as the spec has it fails on the scenario's own period: the
    two builders disagree on it. *)
Lemma build_time_periods_condition_differ_on_spring_week :
  ~ (forall time_periods : list TimePeriod,
        Forall (fun p => timestamp_period p = true) time_periods ->
        App.build_time_periods_condition time_periods
        = Some (DbConnector.build_time_periods_condition time_periods)).
Proof.
  intros H. specialize (H [spring_week]).
  assert (E : match App.build_time_periods_condition [spring_week] with
              | Some s => String.eqb s (DbConnector.build_time_periods_condition [spring_week])
              | None => false
              end = false) by (vm_compute; reflexivity).
  rewrite H in E by (repeat constructor).
  rewrite String.eqb_refl in E. discriminate E.
Qed.

(** ** The builders on an empty list of periods *)

(** C10.  On the empty list [build_time_periods_condition] returns the
    empty string without failing, and both query builders of [app.py]
    still return a query, whose WHERE clause opens with the empty group
    "()". *)
Theorem empty_time_periods_give_empty_group :
  App.build_time_periods_condition [] = Some ""
  /\ (forall (event_name platform : string) (min_level : Z),
        exists pre post,
          App.get_event_participation_query event_name [] platform min_level
          = Some (pre ++ "WHERE 
            ()
            AND r.level >= " ++ str_of_int min_level ++ post))
  /\ (forall (event_name platform : string) (min_level : Z),
        exists pre post,
          App.get_event_engagement_query event_name [] platform min_level
          = Some (pre ++ "WHERE
            ()
            AND event_name = '" ++ event_name ++ post)).
Proof.
  split; [reflexivity|]. split; intros event_name platform min_level.
  - pose (table_prefix := App.table_prefix_of platform).
    exists ("
    -- Identify all eligible users with the specified minimum level from retention data
    WITH eligible_users AS (
        SELECT DISTINCT
            r.account_id,
            r.created_day
        FROM 
            " ++ table_prefix ++ ".f_sdk_retention_data r
        "),
      (" -- Use configurable minimum level
    ),
"
       ++ App.event_participants table_prefix "" event_name min_level
       ++ App.user_participation ++ App.daily_active_users_by_group
       ++ App.iap_metrics table_prefix "" min_level ++ App.final_select).
    unfold App.get_event_participation_query. cbn [App.build_time_periods_condition
      App.conditions option_map join concat].
    unfold App.participation_query, App.eligible_users. fold table_prefix.
    f_equal. assoc_right. reflexivity.
  - pose (table_prefix := App.table_prefix_of platform).
    exists ("
    WITH event_engagement AS (
        SELECT
            created_day,
            COUNT(DISTINCT account_id) AS unique_users,
            COUNT(*) AS total_interactions,
            COUNT(*) / COUNT(DISTINCT account_id) AS avg_interactions_per_user,
            COUNT(DISTINCT session_id) AS unique_sessions,
            COUNT(*) / COUNT(DISTINCT session_id) AS avg_interactions_per_session
        FROM
            " ++ table_prefix ++ ".f_sdk_event_data
        "),
      ("'
            AND level >= " ++ str_of_int min_level ++ " -- Use configurable minimum level
        GROUP BY
            created_day
        ORDER BY
            created_day
    )
    
    SELECT * FROM event_engagement
    ").
    unfold App.get_event_engagement_query. cbn [App.build_time_periods_condition
      App.conditions option_map join concat].
    unfold App.engagement_query. fold table_prefix.
    f_equal. assoc_right. reflexivity.
Qed.

(** ** The derived ratios of the participation query *)

(** Every participation query ends with the final SELECT, whatever the
    arguments. *)
Lemma participation_query_final_select (event_name platform : string)
  (time_periods : list TimePeriod) (min_level : Z) (query : string) :
  App.get_event_participation_query event_name time_periods platform min_level
  = Some query ->
  exists ctes, query = ctes ++ App.final_select.
Proof.
  unfold App.get_event_participation_query.
  destruct (App.build_time_periods_condition time_periods) as [c|]; [|discriminate].
  intros H. apply some_inj in H. subst query. unfold App.participation_query.
  eexists. repeat rewrite <- append_assoc. reflexivity.
Qed.

Lemma null_if_zero (g : Q) :
  Sql.null_if (Sql.Num g) (Sql.Num (inject_Z 0))
  = if Qeq_bool g 0 then Sql.Null else Sql.Num g.
Proof.
  reflexivity.
Qed.

Lemma guarded_division (a g : Q) :
  match (if Qeq_bool g 0 then Sql.Null else Sql.Num g) with
  | Sql.Null => Sql.Value Sql.Null
  | Sql.Num b => Sql.divide (Sql.Num a) (Sql.Num b)
  end = Sql.Value (Sql.ratio_or_null a g).
Proof.
  unfold Sql.ratio_or_null, Sql.divide.
  destruct (Qeq_bool g 0) eqn:E; [reflexivity | now rewrite E].
Qed.

Lemma eval_guarded_ratio (rho : Sql.env) (t1 c1 t2 c2 : string) (a g : Q) :
  rho t1 c1 = Some (Sql.Num a) -> rho t2 c2 = Some (Sql.Num g) ->
  Sql.eval rho (Sql.Div (Sql.Col t1 c1) (Sql.NullIf (Sql.Col t2 c2) (Sql.Lit 0)))
  = Sql.Value (Sql.ratio_or_null a g).
Proof.
  intros Ha Hg. cbn [Sql.eval]. rewrite Ha, Hg, null_if_zero.
  rewrite <- guarded_division.
  destruct (Qeq_bool g 0); reflexivity.
Qed.

(** C1, as the code has it.  The final SELECT of the participation query
    computes each ratio as [numerator / nullIf(denominator, 0)]: the ratio
    is NULL, not 0, when its denominator is 0, and the exact quotient
    otherwise; no evaluation ends in an engine error or in a division by
    zero.  The four expressions are columns of the final SELECT, with which
    every query the builder returns ends. *)
Theorem derived_ratios_null_on_zero_denominator :
  (forall r : Sql.JoinedRow,
      let users := count_Q (Sql.group_total_users r) in
      let payers := count_Q (Sql.paying_users r) in
      Sql.eval (Sql.env_of r) Sql.conversion_rate
      = Sql.Value (Sql.ratio_or_null (count_Q (Sql.first_time_payers r)) users)
      /\ Sql.eval (Sql.env_of r) Sql.pay_rate
         = Sql.Value (Sql.ratio_or_null payers users)
      /\ Sql.eval (Sql.env_of r) Sql.ARPU
         = Sql.Value (Sql.ratio_or_null (Sql.total_revenue r) users)
      /\ Sql.eval (Sql.env_of r) Sql.ARPPU
         = Sql.Value (Sql.ratio_or_null (Sql.total_revenue r) payers))
  /\ contains (Sql.show Sql.conversion_rate ++ " AS conversion_rate,") App.final_select = true
  /\ contains (Sql.show Sql.pay_rate ++ " AS pay_rate,") App.final_select = true
  /\ contains (Sql.show Sql.ARPU ++ " AS ARPU,") App.final_select = true
  /\ contains (Sql.show Sql.ARPPU ++ " AS ARPPU") App.final_select = true
  /\ (forall (event_name platform : string) (time_periods : list TimePeriod)
             (min_level : Z),
         match App.get_event_participation_query event_name time_periods platform
                 min_level with
         | Some query => exists ctes, query = ctes ++ App.final_select
         | None => True
         end).
Proof.
  split; [| repeat split; try (vm_compute; reflexivity)].
  - intros r. cbv zeta.
    repeat split; apply eval_guarded_ratio; reflexivity.
  - intros event_name platform time_periods min_level.
    destruct (App.get_event_participation_query event_name time_periods platform
                min_level) as [query|] eqn:E; [|exact I].
    now apply (participation_query_final_select event_name platform time_periods
                 min_level).
Qed.

(** The spec's example: revenue 100 over 4 users gives an ARPU of 25. *)
Lemma arpu_example :
  exists q, Sql.eval (Sql.env_of (Sql.mkJoined 1 2 100 4)) Sql.ARPU = Sql.Value (Sql.Num q)
            /\ (q == 25)%Q.
Proof.
  eexists. split; [vm_compute; reflexivity | reflexivity].
Qed.

(** The claim as the spec has it fails on a row without users: the ratios
    are NULL there, not 0. *)
Lemma derived_ratios_not_zero_on_zero_denominator :
  ~ (forall r : Sql.JoinedRow,
        Sql.eval (Sql.env_of r) Sql.ARPU
        = Sql.Value (Sql.ratio_or_zero (Sql.total_revenue r)
                       (count_Q (Sql.group_total_users r)))).
Proof.
  intros H. specialize (H (Sql.mkJoined 0 0 0 0)).
  vm_compute in H. discriminate H.
Qed.

(** ** The metrics summarizer *)

Lemma wrap_int64_small (z : Z) :
  (- 2 ^ 63 <= z < 2 ^ 63)%Z -> Pandas.wrap_int64 z = z.
Proof.
  intros H. unfold Pandas.wrap_int64. rewrite Z.mod_small; lia.
Qed.

Lemma wrap_int64_add (a b : Z) :
  Pandas.wrap_int64 (Pandas.wrap_int64 a + b) = Pandas.wrap_int64 (a + b).
Proof.
  unfold Pandas.wrap_int64. f_equal.
  replace (((a + 2 ^ 63) mod 2 ^ 64 - 2 ^ 63 + b + 2 ^ 63))%Z
    with ((a + 2 ^ 63) mod 2 ^ 64 + b)%Z by lia.
  rewrite Zplus_mod_idemp_l. f_equal. lia.
Qed.

(** The int64 sum is the unbounded sum, wrapped once. *)
Lemma sum_int64_from (l : list N) : forall acc : Z,
  fold_left (fun acc x => Pandas.wrap_int64 (acc + Z.of_N x)) l
    (Pandas.wrap_int64 acc)
  = Pandas.wrap_int64 (acc + Z.of_N (total l)).
Proof.
  induction l as [|x l IH]; intros acc; cbn [fold_left total fold_right].
  - f_equal. lia.
  - fold (total l). rewrite wrap_int64_add, IH. f_equal. lia.
Qed.

Lemma sum_int64_wraps (l : list N) :
  Pandas.sum_int64 l = Pandas.wrap_int64 (Z.of_N (total l)).
Proof.
  unfold Pandas.sum_int64.
  change 0%Z with (Pandas.wrap_int64 0) at 1. now rewrite sum_int64_from.
Qed.

(** It is the unbounded sum as long as that stays below 2^63. *)
Lemma sum_int64_small (l : list N) :
  (total l < int64_bound)%N -> Pandas.sum_int64 l = Z.of_N (total l).
Proof.
  intros H. rewrite sum_int64_wraps. apply wrap_int64_small.
  unfold int64_bound in H. lia.
Qed.

Lemma fold_left_Qplus (l : list Q) : forall acc,
  (fold_left Qplus l acc == acc + fold_left Qplus l 0)%Q.
Proof.
  induction l as [|x l IH]; intros acc; simpl.
  - now rewrite Qplus_0_r.
  - rewrite IH, (IH (0 + x)%Q). ring.
Qed.

Lemma sum_Q_cons (x : Q) (l : list Q) :
  (Pandas.sum_Q (x :: l) == x + Pandas.sum_Q l)%Q.
Proof.
  unfold Pandas.sum_Q. simpl. rewrite fold_left_Qplus. ring.
Qed.

Lemma where_eq_cons {R : Type} (col : R -> string) (s : string) (r : R)
  (rows : list R) :
  Pandas.where_eq col s (r :: rows)
  = if String.eqb (col r) s then r :: Pandas.where_eq col s rows
    else Pandas.where_eq col s rows.
Proof.
  reflexivity.
Qed.

Lemma total_participant_users (rows : list Participation.Row) :
  total (map Participation.group_total_users
           (Pandas.where_eq Participation.participation_group
              "Event Participant" rows))
  = participant_users rows.
Proof.
  induction rows as [|r rows IH]; [reflexivity|].
  rewrite where_eq_cons. cbn [participant_users].
  destruct (String.eqb (Participation.participation_group r) "Event Participant").
  - cbn [map total fold_right]. fold (total (map Participation.group_total_users
      (Pandas.where_eq Participation.participation_group "Event Participant" rows))).
    now rewrite IH.
  - now rewrite IH.
Qed.

Lemma total_all_users (rows : list Participation.Row) :
  total (map Participation.group_total_users rows) = all_users rows.
Proof.
  induction rows as [|r rows IH]; [reflexivity|].
  cbn [map total fold_right all_users].
  fold (total (map Participation.group_total_users rows)). now rewrite IH.
Qed.

Lemma participant_users_le_all (rows : list Participation.Row) :
  (participant_users rows <= all_users rows)%N.
Proof.
  induction rows as [|r rows IH]; cbn [participant_users all_users]; [lia|].
  destruct (String.eqb (Participation.participation_group r) "Event Participant"); lia.
Qed.

(** The rate of a table whose users number fewer than 2^63. *)
Lemma participation_rate_small (rows : list Participation.Row) :
  (all_users rows < int64_bound)%N ->
  App.calculate_overall_participation_rate (Some rows)
  = if (all_users rows =? 0)%N then 0%Q
    else (count_Q (participant_users rows) / count_Q (all_users rows))%Q.
Proof.
  intros Hb. destruct rows as [|r rows]; [reflexivity|].
  unfold App.calculate_overall_participation_rate.
  rewrite !sum_int64_small.
  - rewrite total_participant_users, total_all_users. cbn [Pandas.try_except].
    destruct (N.eqb_spec (all_users (r :: rows)) 0) as [E|E].
    + rewrite E. reflexivity.
    + destruct (Z.ltb_spec 0 (Z.of_N (all_users (r :: rows)))); [reflexivity | lia].
  - rewrite total_participant_users.
    pose proof (participant_users_le_all (r :: rows)). lia.
  - now rewrite total_all_users.
Qed.

Lemma sum_participant_revenue (rows : list Participation.Row) :
  (Pandas.sum_Q (map Participation.total_revenue
                   (Pandas.where_eq Participation.participation_group
                      "Event Participant" rows))
   == participant_revenue rows)%Q.
Proof.
  induction rows as [|r rows IH]; [reflexivity|].
  rewrite where_eq_cons. cbn [participant_revenue].
  destruct (String.eqb (Participation.participation_group r) "Event Participant").
  - cbn [map]. now rewrite sum_Q_cons, IH.
  - rewrite IH. ring.
Qed.

Lemma total_all_interactions (rows : list Engagement.Row) :
  total (map Engagement.total_interactions rows) = all_interactions rows.
Proof.
  induction rows as [|r rows IH]; [reflexivity|].
  cbn [map total fold_right all_interactions].
  fold (total (map Engagement.total_interactions rows)). now rewrite IH.
Qed.

(** The total engagement of a table with fewer than 2^63 interactions. *)
Lemma total_engagement_small (rows : list Engagement.Row) :
  (all_interactions rows < int64_bound)%N ->
  App.total_engagement (Some rows) = Z.of_N (all_interactions rows).
Proof.
  intros Hb. destruct rows as [|r rows]; [reflexivity|].
  unfold App.total_engagement.
  rewrite sum_int64_small; now rewrite total_all_interactions.
Qed.

(** Beyond that the int64 sums wrap around: two groups of 2^62 participants
    add up to a negative total, and the rate is reported as 0. *)
Lemma participation_rate_wraps_around :
  App.calculate_overall_participation_rate
    (Some [crowd_row; crowd_row]) = 0%Q
  /\ App.total_engagement (Some [crowd_day; crowd_day]) = (- 2 ^ 63)%Z.
Proof.
  split; vm_compute; reflexivity.
Qed.

(** C4.  [calculate_overall_participation_rate] returns the users of the
    'Event Participant' rows divided by the users of all rows, and exactly 0
    for [None], for a table without rows and for a zero denominator.  The
    sums are those of pandas on an int64 column; the table is one whose
    users number fewer than 2^63, so that they do not wrap around. *)
Theorem calculate_overall_participation_rate_spec :
  (forall rows : list Participation.Row,
      (all_users rows < int64_bound)%N ->
      App.calculate_overall_participation_rate (Some rows)
      = if (all_users rows =? 0)%N then 0%Q
        else (count_Q (participant_users rows) / count_Q (all_users rows))%Q)
  /\ App.calculate_overall_participation_rate None = 0%Q
  /\ App.calculate_overall_participation_rate (Some []) = 0%Q.
Proof.
  split; [| split; reflexivity].
  intros rows Hb. now apply participation_rate_small.
Qed.

Lemma calculate_overall_participation_rate_example :
  App.calculate_overall_participation_rate (Some [participant_row; other_row])
  = (count_Q 3 / count_Q 8)%Q.
Proof.
  apply (proj1 calculate_overall_participation_rate_spec [participant_row; other_row]).
  reflexivity.
Defined.

(** C5.  [calculate_overall_revenue] returns the revenue of the 'Event
    Participant' rows, and exactly 0 for [None] and for a table without
    rows; it is defined on every table. *)
Theorem calculate_overall_revenue_spec :
  (forall df : Table Participation.Row,
      (App.calculate_overall_revenue df
       == match df with
          | None => 0
          | Some rows => participant_revenue rows
          end)%Q)
  /\ App.calculate_overall_revenue None = 0%Q
  /\ App.calculate_overall_revenue (Some []) = 0%Q.
Proof.
  split; [| split; reflexivity].
  intros [[|r rows]|]; try reflexivity.
  unfold App.calculate_overall_revenue, Pandas.try_except.
  apply sum_participant_revenue.
Qed.

(** C6.  The total-engagement tile shows the sum of [total_interactions]
    over the rows of the engagement table, 0 for [None] and for a table
    without rows, and 50 for the single row of the spec's scenario.  The
    sum is that of pandas on an int64 column; the table is one with fewer
    than 2^63 interactions, so that it does not wrap around. *)
Theorem total_engagement_spec :
  (forall rows : list Engagement.Row,
      (all_interactions rows < int64_bound)%N ->
      App.total_engagement (Some rows) = Z.of_N (all_interactions rows))
  /\ App.total_engagement None = 0%Z
  /\ App.total_engagement (Some []) = 0%Z
  /\ App.total_engagement
       (Some [Engagement.mkRow "2024-01-01" 10 50 5 10 5]) = 50%Z.
Proof.
  split; [| repeat split; reflexivity].
  intros rows Hb. now apply total_engagement_small.
Qed.

Lemma total_engagement_example :
  App.total_engagement (Some [busy_day; quiet_day]) = 52%Z.
Proof.
  apply (proj1 total_engagement_spec [busy_day; quiet_day]). reflexivity.
Defined.

(** ** The query executors *)

(** C7, as the code has it.  [execute_query] of [app.py] turns an empty
    engine result into the empty frame.  On an engine error it returns
    [None], which is not the empty frame, and passes to [st.error] one
    message holding the platform and the engine's text; the value it
    returns holds neither. *)
Theorem execute_query_outcomes :
  forall (pd_DataFrame : Engine.frame_constructor) (client : Engine.client)
         (query platform : string),
    (client query = Engine.Rows [] ->
     App.execute_query pd_DataFrame client query platform
     = App.mkOutcome (Some Engine.empty_frame) [])
    /\ (forall e : string,
           client query = Engine.Raise e ->
           App.execute_query pd_DataFrame client query platform
           = App.mkOutcome None ["Query execution failed for " ++ platform ++ ": " ++ e]
           /\ App.returned (App.execute_query pd_DataFrame client query platform)
              <> Some Engine.empty_frame).
Proof.
  intros pd client query platform. split.
  - intros H. unfold App.execute_query. rewrite H. reflexivity.
  - intros e H. unfold App.execute_query. rewrite H. split; [reflexivity | discriminate].
Qed.

Lemma execute_query_outcomes_examples :
  App.execute_query any_frame empty_engine "SELECT 1" "Android"
  = App.mkOutcome (Some Engine.empty_frame) []
  /\ (App.execute_query any_frame (failing_engine "timeout") "SELECT 1" "Android"
      = App.mkOutcome None ["Query execution failed for Android: timeout"]
      /\ App.returned (App.execute_query any_frame (failing_engine "timeout") "SELECT 1" "Android")
         <> Some Engine.empty_frame).
Proof.
  split.
  - apply (proj1 (execute_query_outcomes any_frame empty_engine "SELECT 1" "Android")).
    reflexivity.
  - apply (proj2 (execute_query_outcomes any_frame (failing_engine "timeout")
                    "SELECT 1" "Android") "timeout").
    reflexivity.
Defined.

(** The claim as the spec has it fails: the value [app.py] returns on an
    error is the same [None] for Android and for iOS. *)
Lemma failure_value_carries_no_context :
  ~ failure_value_carries_context any_frame.
Proof.
  intros (platform_of & message_of & H).
  destruct (H (failing_engine "timeout") "SELECT 1" "Android" "timeout" eq_refl) as [Ha _].
  destruct (H (failing_engine "timeout") "SELECT 1" "iOS" "timeout" eq_refl) as [Hi _].
  cbv in Ha, Hi. rewrite Ha in Hi. discriminate Hi.
Qed.

(** * Further properties of the sources *)

(** ** The period form produces timestamps *)

Lemma digits_of_uint (d : Decimal.uint) :
  all_chars is_digit (NilEmpty.string_of_uint d) = true.
Proof.
  induction d; simpl; try assumption; reflexivity.
Qed.

Lemma str_of_nat_digits (n : nat) : all_chars is_digit (str_of_nat n) = true.
Proof.
  unfold str_of_nat, NilZero.string_of_uint.
  destruct (Nat.to_uint n) eqn:E; try reflexivity;
    rewrite <- E; apply digits_of_uint.
Qed.

Lemma str_of_nat_not_empty (n : nat) : is_empty (str_of_nat n) = false.
Proof.
  unfold str_of_nat, NilZero.string_of_uint.
  destruct (Nat.to_uint n); reflexivity.
Qed.

Lemma zeros_digits (k : nat) : all_chars is_digit (zeros k) = true.
Proof.
  induction k as [|k IH]; [reflexivity | exact IH].
Qed.

Lemma zero_padded_digits (w n : nat) : all_chars is_digit (zero_padded w n) = true.
Proof.
  unfold zero_padded. now rewrite all_chars_app, zeros_digits, str_of_nat_digits.
Qed.

Lemma zero_padded_not_empty (w n : nat) : is_empty (zero_padded w n) = false.
Proof.
  unfold zero_padded. destruct (zeros (w - String.length (str_of_nat n))).
  - apply str_of_nat_not_empty.
  - reflexivity.
Qed.

Lemma digit_date_char (c : ascii) : is_digit c = true -> date_char c = true.
Proof.
  unfold date_char. now intros ->.
Qed.

Lemma digit_time_char (c : ascii) : is_digit c = true -> time_char c = true.
Proof.
  unfold time_char. now intros ->.
Qed.

Lemma zero_padded_date (w n : nat) : all_chars date_char (zero_padded w n) = true.
Proof.
  exact (all_chars_impl _ _ _ digit_date_char (zero_padded_digits w n)).
Qed.

Lemma zero_padded_time (w n : nat) : all_chars time_char (zero_padded w n) = true.
Proof.
  exact (all_chars_impl _ _ _ digit_time_char (zero_padded_digits w n)).
Qed.

Lemma str_date_is_date (d : Datetime.date) : is_date (Datetime.str_date d) = true.
Proof.
  unfold is_date, Datetime.str_date. apply andb_true_iff. split.
  - apply negb_true_iff, is_empty_app, zero_padded_not_empty.
  - rewrite !all_chars_app, !zero_padded_date. reflexivity.
Qed.

Lemma str_time_is_time (t : Datetime.time) : is_time (Datetime.str_time t) = true.
Proof.
  unfold is_time, Datetime.str_time. apply andb_true_iff. split.
  - apply negb_true_iff, is_empty_app, zero_padded_not_empty.
  - rewrite !all_chars_app, !zero_padded_time.
    destruct (Nat.eqb (Datetime.microsecond t) 0); [reflexivity|].
    rewrite all_chars_app, zero_padded_time. reflexivity.
Qed.

Lemma date_char_not_blank (c : ascii) : date_char c = true -> Ascii.eqb c " " = false.
Proof.
  destruct c as [[] [] [] [] [] [] [] []]; vm_compute; intros H;
    (discriminate H || reflexivity).
Qed.

Lemma is_timestamp_from_format (d t : string) : forall date,
  all_chars date_char d = true ->
  is_timestamp_from date (d ++ String " " t) = is_date (date ++ d) && is_time t.
Proof.
  induction d as [|c d IH]; intros date Hd.
  - rewrite append_empty_r. reflexivity.
  - simpl in Hd. apply andb_true_iff in Hd as [Hc Hd].
    change (String c d ++ String " " t) with (String c (d ++ String " " t)).
    cbn [is_timestamp_from]. rewrite (date_char_not_blank c Hc), (IH _ Hd).
    now rewrite append_assoc.
Qed.

Lemma format_datetime_timestamp (d t : string) :
  is_date d = true -> is_time t = true -> is_timestamp (format_datetime d t) = true.
Proof.
  intros Hd Ht. unfold is_timestamp, format_datetime.
  change (d ++ " " ++ t) with (d ++ String " " t).
  rewrite is_timestamp_from_format.
  - change ("" ++ d) with d. now rewrite Hd, Ht.
  - unfold is_date in Hd. now apply andb_true_iff in Hd as [_ Hd].
Qed.

Lemma form_period_timestamp (d1 d2 : Datetime.date) (t1 t2 : Datetime.time) :
  timestamp_period (period_of d1 t1 d2 t2) = true.
Proof.
  unfold timestamp_period, period_of. cbn [start_date end_date].
  rewrite !format_datetime_timestamp; auto using str_date_is_date, str_time_is_time.
Qed.

(** X1.  Whatever dates and times the form is submitted with, the period it
    stores has two bounds of the "date time" shape, and [split()[0]] in
    [build_time_periods_condition] gives back the two dates as they were
    rendered: the clause of the period is built from them and never
    raises. *)
Theorem period_of_form_round_trip :
  forall (d1 d2 : Datetime.date) (t1 t2 : Datetime.time),
    let p := period_of d1 t1 d2 t2 in
    timestamp_period p = true
    /\ item0 (split (start_date p)) = Some (Datetime.str_date d1)
    /\ item0 (split (end_date p)) = Some (Datetime.str_date d2)
    /\ App.period_condition p
       = Some (App.condition (Datetime.str_date d1) (Datetime.str_date d2)
                 (start_date p) (end_date p)).
Proof.
  intros d1 d2 t1 t2 p.
  assert (H1 : item0 (split (start_date p)) = Some (Datetime.str_date d1))
    by apply first_token_timestamp, str_date_is_date.
  assert (H2 : item0 (split (end_date p)) = Some (Datetime.str_date d2))
    by apply first_token_timestamp, str_date_is_date.
  repeat split; try assumption.
  - apply form_period_timestamp.
  - unfold App.period_condition. now rewrite H1, H2.
Qed.

(** ** The store of periods *)

Lemma date_ltb_irrefl (d : Datetime.date) : Datetime.date_ltb d d = false.
Proof.
  unfold Datetime.date_ltb. rewrite !Nat.ltb_irrefl, !Nat.eqb_refl. reflexivity.
Qed.

(** X2.  The form stores a submitted period exactly when its end date is not
    before its start date, and leaves the list alone otherwise; the two
    times play no part in the check, so that a period within one day is
    stored whatever its times are, also when it ends before it starts. *)
Theorem add_time_period_checks_dates_only :
  forall (d1 d2 : Datetime.date) (t1 t2 : Datetime.time) (s : list TimePeriod),
    (Datetime.date_ltb d2 d1 = false ->
     App.add_time_period d1 t1 d2 t2 s = (s ++ [period_of d1 t1 d2 t2])%list)
    /\ (Datetime.date_ltb d2 d1 = true -> App.add_time_period d1 t1 d2 t2 s = s)
    /\ App.add_time_period d1 t1 d1 t2 s = (s ++ [period_of d1 t1 d1 t2])%list.
Proof.
  intros d1 d2 t1 t2 s. unfold App.add_time_period, period_of. repeat split.
  - now intros ->.
  - now intros ->.
  - now rewrite date_ltb_irrefl.
Qed.

Lemma add_time_period_examples :
  (App.add_time_period new_year noon (Datetime.mkDate 2024 1 7) one_o_clock []
   = [period_of new_year noon (Datetime.mkDate 2024 1 7) one_o_clock])
  /\ (App.add_time_period (Datetime.mkDate 2024 1 7) noon new_year one_o_clock []
      = [])
  /\ App.add_time_period new_year noon new_year one_o_clock []
     = [mkPeriod "2024-01-01 12:00:00" "2024-01-01 01:00:00"].
Proof.
  split; [|split].
  - apply (proj1 (add_time_period_checks_dates_only new_year
                    (Datetime.mkDate 2024 1 7) noon one_o_clock [])).
    reflexivity.
  - apply (proj1 (proj2 (add_time_period_checks_dates_only
                           (Datetime.mkDate 2024 1 7) new_year noon one_o_clock []))).
    reflexivity.
  - apply (proj2 (proj2 (add_time_period_checks_dates_only new_year new_year
                           noon one_o_clock []))).
Defined.

Lemma pop_spec {A : Type} (l : list A) : forall i,
  match pop i l with
  | Some (x, rest) =>
      i < List.length l /\ nth_error l i = Some x
      /\ rest = (firstn i l ++ skipn (S i) l)%list
  | None => List.length l <= i
  end.
Proof.
  induction l as [|a l IH]; intros i.
  - simpl. lia.
  - destruct i as [|j]; cbn [pop].
    + repeat split. simpl. lia.
    + specialize (IH j). destruct (pop j l) as [[y rest']|].
      * destruct IH as (Hlt & Hnth & ->). repeat split; [simpl; lia | exact Hnth].
      * simpl. lia.
Qed.

(** X3.  Removing entry [i] of the list succeeds exactly for an index below
    its length; it takes out that entry and keeps the others in order, so
    the list is one shorter.  Removing the entry a submission has just
    added gives the list back. *)
Theorem remove_time_period_spec :
  forall (s : list TimePeriod) (i : nat),
    (i < List.length s ->
     exists rest,
       App.handle (App.Remove i) s = Some rest
       /\ rest = (firstn i s ++ skipn (S i) s)%list
       /\ S (List.length rest) = List.length s)
    /\ (List.length s <= i -> App.handle (App.Remove i) s = None)
    /\ (forall p, App.handle (App.Remove (List.length s)) (s ++ [p])%list = Some s).
Proof.
  intros s i. cbn [App.handle]. repeat split.
  - intros Hi. pose proof (pop_spec s i) as H.
    destruct (pop i s) as [[x rest]|]; [|lia].
    destruct H as (_ & Hnth & ->). cbn [option_map snd].
    exists (firstn i s ++ skipn (S i) s)%list.
    split; [reflexivity|]. split; [reflexivity|].
    rewrite length_app, length_firstn, length_skipn. lia.
  - intros Hi. pose proof (pop_spec s i) as H.
    destruct (pop i s) as [[x rest]|]; [lia | reflexivity].
  - intros p. pose proof (pop_spec (s ++ [p])%list (List.length s)) as H.
    destruct (pop (List.length s) (s ++ [p])%list) as [[x rest]|].
    + destruct H as (_ & _ & ->). cbn [option_map snd]. f_equal.
      rewrite firstn_app, firstn_all, Nat.sub_diag. cbn [firstn].
      rewrite skipn_all2 by (rewrite length_app; simpl; lia).
      now rewrite !app_nil_r.
    + rewrite length_app in H. simpl in H. lia.
Qed.

Lemma remove_time_period_examples :
  (exists rest,
      App.handle (App.Remove 0) [spring_week; february_days] = Some rest
      /\ rest = (firstn 0 [spring_week; february_days]
                 ++ skipn 1 [spring_week; february_days])%list
      /\ S (List.length rest) = 2)
  /\ App.handle (App.Remove 2) [spring_week; february_days] = None.
Proof.
  split.
  - apply (proj1 (remove_time_period_spec [spring_week; february_days] 0)).
    simpl. lia.
  - apply (proj1 (proj2 (remove_time_period_spec [spring_week; february_days] 2))).
    simpl. lia.
Defined.






(** ** Bounds that make the condition builder raise *)

Lemma split_from_word (s : string) : forall word,
  is_empty word = false -> exists w rest, split_from word s = w :: rest.
Proof.
  induction s as [|c s IH]; intros word Hw; cbn [split_from].
  - rewrite Hw. now exists word, [].
  - destruct (is_space c).
    + rewrite Hw. now exists word, (split_from "" s).
    + apply IH. now apply is_empty_app.
Qed.

Lemma split_blank (s : string) :
  split s = [] <-> blank s = true.
Proof.
  unfold split, blank. induction s as [|c s IH]; cbn [split_from all_chars].
  - split; reflexivity.
  - destruct (is_space c); cbn [andb is_empty].
    + exact IH.
    + split; [|discriminate].
      destruct (split_from_word s ("" ++ String c "") eq_refl) as (w & rest & E).
      rewrite E. discriminate.
Qed.

Lemma item0_split_blank (s : string) :
  item0 (split s) = (if blank s then None else item0 (split s))
  /\ (blank s = false -> exists w, item0 (split s) = Some w).
Proof.
  destruct (blank s) eqn:B.
  - apply split_blank in B. rewrite B. split; [reflexivity | discriminate].
  - split; [reflexivity|]. intros _.
    destruct (split s) as [|w rest] eqn:E.
    + apply split_blank in E. congruence.
    + now exists w.
Qed.

Lemma period_condition_blank (p : TimePeriod) :
  match App.period_condition p with
  | Some _ => blank_period p = false
  | None => blank_period p = true
  end.
Proof.
  unfold App.period_condition, blank_period.
  destruct (item0_split_blank (start_date p)) as [Hs Hs'].
  destruct (item0_split_blank (end_date p)) as [He He'].
  destruct (blank (start_date p)).
  - rewrite Hs. reflexivity.
  - destruct (Hs' eq_refl) as [w ->]. destruct (blank (end_date p)).
    + rewrite He. reflexivity.
    + destruct (He' eq_refl) as [w' ->]. reflexivity.
Qed.

(** X5.  [build_time_periods_condition] of [app.py] raises (on
    [split()[0]]) exactly when some period has a bound that is empty or
    all whitespace; on every other list it returns a condition. *)
Theorem build_time_periods_condition_raises_on_blank :
  forall time_periods : list TimePeriod,
    match App.build_time_periods_condition time_periods with
    | Some _ => existsb blank_period time_periods = false
    | None => existsb blank_period time_periods = true
    end.
Proof.
  intros time_periods. unfold App.build_time_periods_condition.
  induction time_periods as [|p ps IH]; [reflexivity|].
  cbn [App.conditions existsb].
  pose proof (period_condition_blank p) as Hp.
  destruct (App.period_condition p) as [c|]; rewrite Hp; [|reflexivity].
  destruct (App.conditions ps) as [cs|]; exact IH.
Qed.

(** ** The listing of events *)

Lemma items0_singletons {A : Type} (names : list A) :
  items0 (map (fun n => [n]) names) = Some names.
Proof.
  induction names as [|n names IH]; [reflexivity|].
  cbn [map items0 item0 nth_error]. now rewrite IH.
Qed.

Lemma items0_empty_row {A : Type} (l : list (list A)) :
  In [] l -> items0 l = None.
Proof.
  induction l as [|x l IH]; [contradiction|].
  intros [->|H]; cbn [items0 item0 nth_error]; [reflexivity|].
  rewrite (IH H). now destruct x.
Qed.

(** X6.  [get_available_events] of [app.py] returns the names of a
    one-column result in the engine's order.  On an engine error, and on a
    row without cells, it returns the empty list, the value it also returns
    when the table holds no event, and shows a message naming the platform
    and the error. *)
Theorem get_available_events_outcomes :
  forall (client : Engine.client) (platform : string),
    let query := App.events_query (App.events_table platform) in
    (forall names : list Engine.cell,
        client query = Engine.Rows (map (fun n => [n]) names) ->
        App.get_available_events client platform = App.mkListing names [])
    /\ (forall result : list Engine.row,
           client query = Engine.Rows result ->
           In [] result ->
           App.get_available_events client platform
           = App.mkListing []
               ["Failed to retrieve event names for " ++ platform
                ++ ": tuple index out of range"])
    /\ (forall e : string,
           client query = Engine.Raise e ->
           App.get_available_events client platform
           = App.mkListing []
               ["Failed to retrieve event names for " ++ platform ++ ": " ++ e]
           /\ App.events (App.get_available_events client platform)
              = App.events (App.get_available_events empty_engine platform)).
Proof.
  intros client platform query. split; [|split].
  - intros names H. unfold App.get_available_events. fold query.
    rewrite H, items0_singletons. reflexivity.
  - intros result H Hin. unfold App.get_available_events. fold query.
    rewrite H, (items0_empty_row result Hin). reflexivity.
  - intros e H. unfold App.get_available_events. fold query.
    rewrite H. split; reflexivity.
Qed.

Lemma get_available_events_examples :
  App.get_available_events
    (fun _ => Engine.Rows [[Engine.Text "spring_event"]; [Engine.Text "winter_event"]])
    "iOS"
  = App.mkListing [Engine.Text "spring_event"; Engine.Text "winter_event"] []
  /\ App.get_available_events (fun _ => Engine.Rows [[Engine.Text "spring_event"]; []])
       "iOS"
     = App.mkListing []
         ["Failed to retrieve event names for iOS: tuple index out of range"]
  /\ (App.get_available_events (failing_engine "timeout") "iOS"
      = App.mkListing [] ["Failed to retrieve event names for iOS: timeout"]
      /\ App.events (App.get_available_events (failing_engine "timeout") "iOS")
         = App.events (App.get_available_events empty_engine "iOS")).
Proof.
  split; [|split].
  - apply (proj1 (get_available_events_outcomes
                    (fun _ => Engine.Rows [[Engine.Text "spring_event"];
                                           [Engine.Text "winter_event"]])
                    "iOS")
             [Engine.Text "spring_event"; Engine.Text "winter_event"]).
    reflexivity.
  - apply (proj1 (proj2 (get_available_events_outcomes
                           (fun _ => Engine.Rows [[Engine.Text "spring_event"]; []])
                           "iOS"))
             [[Engine.Text "spring_event"]; []]).
    + reflexivity.
    + right. left. reflexivity.
  - apply (proj2 (proj2 (get_available_events_outcomes (failing_engine "timeout") "iOS"))
             "timeout").
    reflexivity.
Defined.

(** X7.  The events offered for selection are listed from the table that
    both queries of [app.py] read: the event-participants branch and the
    engagement query select from that very table, restricted by the
    condition, by the selected name put between quotes as it is, and by the
    level. *)
Theorem queries_read_the_listed_table :
  forall (event_name platform : string) (time_periods : list TimePeriod)
         (min_level : Z) (time_periods_condition : string),
    App.build_time_periods_condition time_periods = Some time_periods_condition ->
    (exists pre post,
        App.get_event_participation_query event_name time_periods platform min_level
        = Some (pre ++ "FROM 
            " ++ App.events_table platform
                ++ " e
        WHERE 
            (" ++ time_periods_condition ++ ")
            AND e.event_name = '" ++ event_name ++ "'
            AND e.level >= " ++ str_of_int min_level ++ post))
    /\ (exists pre post,
           App.get_event_engagement_query event_name time_periods platform min_level
           = Some (pre ++ "FROM
            " ++ App.events_table platform
                   ++ "
        WHERE
            (" ++ time_periods_condition ++ ")
            AND event_name = '" ++ event_name ++ "'
            AND level >= " ++ str_of_int min_level ++ post))
    /\ exists pre post,
         App.events_query (App.events_table platform)
         = pre ++ "FROM " ++ App.events_table platform ++ post.
Proof.
  intros event_name platform time_periods min_level time_periods_condition E.
  pose (table_prefix := App.table_prefix_of platform).
  split; [|split].
  - exists (App.eligible_users table_prefix time_periods_condition min_level
            ++ "
    -- Identify event participants
    event_participants AS (
        SELECT DISTINCT
            e.account_id,
            e.created_day
        "),
      (" -- Use configurable minimum level
    ),
"
       ++ App.user_participation ++ App.daily_active_users_by_group
       ++ App.iap_metrics table_prefix time_periods_condition min_level
       ++ App.final_select).
    unfold App.get_event_participation_query. rewrite E.
    unfold App.participation_query, App.event_participants, App.events_table.
    fold table_prefix. unfold table_prefix, App.table_prefix_of.
    f_equal. assoc_right. reflexivity.
  - exists ("
    WITH event_engagement AS (
        SELECT
            created_day,
            COUNT(DISTINCT account_id) AS unique_users,
            COUNT(*) AS total_interactions,
            COUNT(*) / COUNT(DISTINCT account_id) AS avg_interactions_per_user,
            COUNT(DISTINCT session_id) AS unique_sessions,
            COUNT(*) / COUNT(DISTINCT session_id) AS avg_interactions_per_session
        "),
      (" -- Use configurable minimum level
        GROUP BY
            created_day
        ORDER BY
            created_day
    )
    
    SELECT * FROM event_engagement
    ").
    unfold App.get_event_engagement_query. rewrite E.
    unfold App.engagement_query, App.events_table, App.table_prefix_of.
    f_equal. assoc_right. reflexivity.
  - exists "
    SELECT DISTINCT event_name
    ", "
    ORDER BY event_name
    ".
    reflexivity.
Qed.

Lemma queries_read_the_listed_table_example :
  (exists pre post,
      App.get_event_participation_query "spring_event" [spring_week] "Android" 5
      = Some (pre ++ "FROM 
            " ++ App.events_table "Android"
              ++ (let time_periods_condition :=
                    App.condition "2024-01-01" "2024-01-07"
                      "2024-01-01 00:00:00" "2024-01-07 23:59:59" in
                  let event_name := "spring_event" in
                  let min_level := 5%Z in
                  " e
        WHERE 
            (" ++ time_periods_condition ++ ")
            AND e.event_name = '" ++ event_name ++ "'
            AND e.level >= " ++ str_of_int min_level) ++ post)).
Proof.
  apply (proj1 (queries_read_the_listed_table "spring_event" "Android" [spring_week] 5
                  (App.condition "2024-01-01" "2024-01-07"
                     "2024-01-01 00:00:00" "2024-01-07 23:59:59")
                  eq_refl)).
Defined.

(** ** Setting up the connection *)



(** ** Bounds and symmetries of the metrics *)

Lemma count_Q_pos (n : N) : (0 < n)%N -> (0 < count_Q n)%Q.
Proof.
  intros H. unfold count_Q, Qlt. simpl. lia.
Qed.

Lemma count_Q_le (a b : N) : (a <= b)%N -> (count_Q a <= count_Q b)%Q.
Proof.
  intros H. unfold count_Q. rewrite <- Zle_Qle. lia.
Qed.

(** X9.  The overall participation rate is a proportion: for [None] and
    for every table whose users number fewer than 2^63, so that the int64
    sums do not wrap around, it lies between 0 and 1. *)
Theorem participation_rate_is_proportion :
  (forall rows : list Participation.Row,
      (all_users rows < int64_bound)%N ->
      (0 <= App.calculate_overall_participation_rate (Some rows))%Q
      /\ (App.calculate_overall_participation_rate (Some rows) <= 1)%Q)
  /\ (0 <= App.calculate_overall_participation_rate None)%Q
  /\ (App.calculate_overall_participation_rate None <= 1)%Q.
Proof.
  split; [| split; discriminate].
  intros rows Hb. rewrite (participation_rate_small rows Hb).
  destruct (N.eqb_spec (all_users rows) 0) as [E|E]; [split; discriminate|].
  assert (Hpos : (0 < count_Q (all_users rows))%Q) by (apply count_Q_pos; lia).
  split.
  - apply Qle_shift_div_l; [exact Hpos|].
    rewrite Qmult_0_l. apply (count_Q_le 0). lia.
  - apply Qle_shift_div_r; [exact Hpos|].
    rewrite Qmult_1_l. apply count_Q_le, participant_users_le_all.
Qed.

Lemma participation_rate_is_proportion_example :
  (0 <= App.calculate_overall_participation_rate (Some [participant_row; other_row]))%Q
  /\ (App.calculate_overall_participation_rate (Some [participant_row; other_row]) <= 1)%Q.
Proof.
  apply (proj1 participation_rate_is_proportion [participant_row; other_row]).
  reflexivity.
Defined.

Lemma participant_users_perm (a b : list Participation.Row) :
  Permutation a b -> participant_users a = participant_users b.
Proof.
  induction 1; cbn [participant_users]; lia.
Qed.

Lemma all_users_perm (a b : list Participation.Row) :
  Permutation a b -> all_users a = all_users b.
Proof.
  induction 1; cbn [all_users]; lia.
Qed.

Lemma all_interactions_perm (a b : list Engagement.Row) :
  Permutation a b -> all_interactions a = all_interactions b.
Proof.
  induction 1; cbn [all_interactions]; lia.
Qed.

(** X10.  The participation rate and the total engagement do not depend on
    the order of the rows: int64 addition wraps around but stays
    commutative and associative, so that tables holding the same rows of
    int64 counts in another order give the same rate and the same total,
    also when the sums wrap around. *)
Theorem metrics_ignore_row_order :
  (forall rows rows' : list Participation.Row,
      Forall (fun r => (Participation.group_total_users r < int64_bound)%N) rows ->
      Permutation rows rows' ->
      App.calculate_overall_participation_rate (Some rows)
      = App.calculate_overall_participation_rate (Some rows'))
  /\ (forall rows rows' : list Engagement.Row,
         Forall (fun r => (Engagement.total_interactions r < int64_bound)%N) rows ->
         Permutation rows rows' ->
         App.total_engagement (Some rows) = App.total_engagement (Some rows')).
Proof.
  split.
  - intros rows rows' _ H.
    destruct rows as [|r rows].
    { apply Permutation_nil in H. now subst. }
    destruct rows' as [|r' rows'].
    { apply Permutation_sym, Permutation_nil in H. discriminate H. }
    unfold App.calculate_overall_participation_rate.
    rewrite !sum_int64_wraps, !total_participant_users, !total_all_users.
    now rewrite (participant_users_perm _ _ H), (all_users_perm _ _ H).
  - intros rows rows' _ H.
    destruct rows as [|r rows].
    { apply Permutation_nil in H. now subst. }
    destruct rows' as [|r' rows'].
    { apply Permutation_sym, Permutation_nil in H. discriminate H. }
    unfold App.total_engagement.
    rewrite !sum_int64_wraps, !total_all_interactions.
    now rewrite (all_interactions_perm _ _ H).
Qed.

Lemma metrics_ignore_row_order_example :
  App.calculate_overall_participation_rate (Some [crowd_row; other_row; crowd_row])
  = App.calculate_overall_participation_rate (Some [other_row; crowd_row; crowd_row])
  /\ App.total_engagement (Some [busy_day; quiet_day])
     = App.total_engagement (Some [quiet_day; busy_day]).
Proof.
  split.
  - apply (proj1 metrics_ignore_row_order [crowd_row; other_row; crowd_row]
             [other_row; crowd_row; crowd_row]).
    + repeat constructor.
    + apply perm_swap.
  - apply (proj2 metrics_ignore_row_order [busy_day; quiet_day] [quiet_day; busy_day]).
    + repeat constructor.
    + apply perm_swap.
Defined.

(** ** The column labels of a result *)

Lemma to_uint_not_nil (n : nat) : Nat.to_uint n <> Decimal.Nil.
Proof.
  intros E. pose proof (DecimalNat.Unsigned.of_to n) as H. rewrite E in H.
  cbn in H. subst n. discriminate E.
Qed.

Lemma str_of_nat_inj (a b : nat) : str_of_nat a = str_of_nat b -> a = b.
Proof.
  unfold str_of_nat. intros H.
  apply DecimalNat.Unsigned.to_uint_inj.
  pose proof (NilZero.usu _ (to_uint_not_nil a)) as Ha.
  pose proof (NilZero.usu _ (to_uint_not_nil b)) as Hb.
  rewrite H in Ha. rewrite Ha in Hb. now apply some_inj in Hb.
Qed.

Lemma positional_names_NoDup (k : nat) : NoDup (positional_names k).
Proof.
  unfold positional_names. apply Injective_map_NoDup; [|apply seq_NoDup].
  intros a b H. injection H as H. now apply str_of_nat_inj.
Qed.

(** X11.  For a result with rows, [execute_query] of [app.py] labels the
    columns by position, with as many labels as the first row has cells
    and no label twice, and hands them to pandas; an error of pandas is
    reported like an engine error and [None] is returned. *)
Theorem execute_query_positional_labels :
  forall (pd_DataFrame : Engine.frame_constructor) (client : Engine.client)
         (query platform : string) (first : Engine.row) (rest : list Engine.row),
    client query = Engine.Rows (first :: rest) ->
    let labels := positional_names (List.length first) in
    List.length labels = List.length first
    /\ NoDup labels
    /\ App.execute_query pd_DataFrame client query platform
       = match pd_DataFrame (first :: rest) labels with
         | inr df => App.mkOutcome (Some df) []
         | inl e =>
             App.mkOutcome None
               ["Query execution failed for " ++ platform ++ ": " ++ e]
         end.
Proof.
  intros pd client query platform first rest H labels. repeat split.
  - unfold labels, positional_names. now rewrite length_map, length_seq.
  - apply positional_names_NoDup.
  - unfold App.execute_query. rewrite H. reflexivity.
Qed.

Lemma execute_query_positional_labels_example :
  let labels := positional_names 2 in
  List.length labels = 2
  /\ NoDup labels
  /\ App.execute_query any_frame
       (fun _ => Engine.Rows [[Engine.Text "2024-01-01"; Engine.Number 3]])
       "SELECT 1" "iOS"
     = match any_frame [[Engine.Text "2024-01-01"; Engine.Number 3]] labels with
       | inr df => App.mkOutcome (Some df) []
       | inl e => App.mkOutcome None ["Query execution failed for iOS: " ++ e]
       end.
Proof.
  apply (execute_query_positional_labels any_frame
           (fun _ => Engine.Rows [[Engine.Text "2024-01-01"; Engine.Number 3]])
           "SELECT 1" "iOS" [Engine.Text "2024-01-01"; Engine.Number 3] []).
  reflexivity.
Defined.

(** ** The platform token *)

Lemma lower_char_idempotent (c : ascii) : lower_char (lower_char c) = lower_char c.
Proof.
  destruct c as [[] [] [] [] [] [] [] []]; reflexivity.
Qed.

Lemma lower_idempotent (s : string) : lower (lower s) = lower s.
Proof.
  induction s as [|c s IH]; [reflexivity|].
  cbn [lower]. now rewrite lower_char_idempotent, IH.
Qed.

Lemma lower_app (a b : string) : lower (a ++ b) = lower a ++ lower b.
Proof.
  induction a as [|c a IH]; [reflexivity|].
  cbn [lower append]. now rewrite IH.
Qed.

(** X12.  The builders and the listing read the platform up to the case of
    its letters: they name the same tables for a platform and for its
    lower-case spelling, and the schema name they build is in lower case
    throughout. *)
Theorem platform_read_up_to_case :
  forall (event_name platform : string) (time_periods : list TimePeriod)
         (min_level : Z),
    App.get_event_participation_query event_name time_periods (lower platform) min_level
    = App.get_event_participation_query event_name time_periods platform min_level
    /\ App.get_event_engagement_query event_name time_periods (lower platform) min_level
       = App.get_event_engagement_query event_name time_periods platform min_level
    /\ DbConnector.get_event_participation_query event_name time_periods
         (lower platform) min_level
       = DbConnector.get_event_participation_query event_name time_periods platform
           min_level
    /\ App.events_table (lower platform) = App.events_table platform
    /\ lower (App.table_prefix_of platform) = App.table_prefix_of platform.
Proof.
  intros event_name platform time_periods min_level.
  unfold App.get_event_participation_query, App.get_event_engagement_query,
    DbConnector.get_event_participation_query, App.events_table,
    App.table_prefix_of, DbConnector.table_prefix_of.
  rewrite lower_idempotent. repeat split.
  rewrite lower_app, lower_idempotent. reflexivity.
Qed.

(** ** The decorated functions of the connector *)

